(** * A banking ledger served over FastAPI: users, balances and loans

    Shallow embedding of [main.py] (the service) and of the two loan
    flows kept in [Reference.py], followed by the properties of the
    ledger operations.

    - Python [int] is [Z]; Python [float] is IEEE 754 binary64, here
      Rocq's primitive [float] with its operations [+], [-], [<?], [<=?];
    - a Python [dict] is an insertion-ordered association list ([Dict]);
    - a coroutine that reads and writes the two module-level dictionaries
      and may raise is a function [Store -> outcome A * Store]: the store
      that comes back is the one left behind, also when the body raised
      (Python does not roll anything back). *)

From Stdlib Require Import ZArith List String Bool Lia.
From Stdlib Require Import Floats.
From Stdlib Require Import DecimalString.
Import ListNotations.

Local Open Scope string_scope.
Local Open Scope Z_scope.

(** ** Python values *)

(** [str(n)] for an [int], as an f-string renders it. *)
Definition str (n : Z) : string := NilZero.string_of_int (Z.to_int n).

(** [dict] keyed by [int]: [get] is [d.get(k)], [set] is [d[k] = v] (a
    present key keeps its place, a new key goes last), [contains] is
    [k in d], [values] is [list(d.values())]. *)
Module Dict.
Section Dict.
Context {V : Type}.

Definition t := list (Z * V).

Definition empty : t := [].

Fixpoint get (d : t) (k : Z) : option V :=
  match d with
  | [] => None
  | (k', v) :: d' => if k =? k' then Some v else get d' k
  end.

Fixpoint set (d : t) (k : Z) (v : V) : t :=
  match d with
  | [] => [(k, v)]
  | (k', v') :: d' =>
      if k =? k' then (k', v) :: d' else (k', v') :: set d' k v
  end.

Definition contains (d : t) (k : Z) : bool :=
  match get d k with Some _ => true | None => false end.

Definition keys (d : t) : list Z := map fst d.

Definition values (d : t) : list V := map snd d.
End Dict.
Arguments t : clear implicits.
End Dict.

(** ** Pydantic models *)

Module User.
Record t := mk { id : Z; name : string; balance : float }.
(** [user.balance = b] on a model instance. *)
Definition with_balance (u : t) (b : float) : t := mk (id u) (name u) b.
End User.
Definition User := User.t.

Module Loan.
Record t := mk { user_id : Z; amount : float }.
End Loan.
Definition Loan := Loan.t.

Inductive TransactionType := DEBIT | CREDIT.

Module Transaction.
Record t := mk { type : TransactionType; amount : float }.
End Transaction.
Definition Transaction := Transaction.t.

Module BalanceResponse.
Record t := mk {
  user_id : Z;
  name : string;
  current_balance : float;
  loan_details : option Loan
}.
End BalanceResponse.
Definition BalanceResponse := BalanceResponse.t.

(** ** The store and the effects of a request handler *)

(** The two module-level dictionaries. *)
Record Store := mkStore {
  users_db : Dict.t User;
  loans_db : Dict.t Loan
}.

Definition empty_store : Store := mkStore Dict.empty Dict.empty.

(** What a handler can raise: FastAPI's [HTTPException], or any other
    Python exception (kept apart because [take_loan] catches the two
    separately). *)
Inductive exn :=
| HTTPException (status_code : Z) (detail : string)
| Exception (msg : string).

Inductive outcome (A : Type) :=
| Return (a : A)
| Raise (e : exn).
Arguments Return {A} a.
Arguments Raise {A} e.

Definition M (A : Type) : Type := Store -> outcome A * Store.

Definition ret {A} (a : A) : M A := fun s => (Return a, s).

Definition raise {A} (e : exn) : M A := fun s => (Raise e, s).

Definition bind {A B} (m : M A) (k : A -> M B) : M B :=
  fun s =>
    match m s with
    | (Return a, s') => k a s'
    | (Raise e, s') => (Raise e, s')
    end.

(** [try: m  except ... as e: h e]: the handler starts from the store the
    body left. *)
Definition try_except {A} (m : M A) (h : exn -> M A) : M A :=
  fun s =>
    match m s with
    | (Return a, s') => (Return a, s')
    | (Raise e, s') => h e s'
    end.

Declare Scope py_scope.
Delimit Scope py_scope with py.
Notation "x <- m ;; k" := (bind m (fun x => k))
  (at level 61, m at next level, right associativity) : py_scope.
Notation "m ;; k" := (bind m (fun _ => k))
  (at level 61, right associativity) : py_scope.
Local Open Scope py_scope.

Definition read_users_db : M (Dict.t User) := fun s => (Return (users_db s), s).

Definition read_loans_db : M (Dict.t Loan) := fun s => (Return (loans_db s), s).

(** [users_db[k] = u] *)
Definition users_db_setitem (k : Z) (u : User) : M unit :=
  fun s => (Return tt, mkStore (Dict.set (users_db s) k u) (loans_db s)).

(** [loans_db[k] = l] *)
Definition loans_db_setitem (k : Z) (l : Loan) : M unit :=
  fun s => (Return tt, mkStore (users_db s) (Dict.set (loans_db s) k l)).

(** ** main.py

    The handlers are modelled as the Python functions they are.  What a
    signature declares with [Path(..., ge=1)] or [Body(..., gt=0)] is
    checked by FastAPI when a request arrives, before the handler is
    called; a handler called from Python, as [take_loan] calls
    [perform_transaction], runs without those checks. *)

Definition find_user_by_id (user_id : Z) : M (option User) :=
  users <- read_users_db ;; ret (Dict.get users user_id).

Definition find_loan_by_user_id (user_id : Z) : M (option Loan) :=
  loans <- read_loans_db ;; ret (Dict.get loans user_id).

(** [POST /users].  The balance of [user_input] is read by nobody. *)
Definition create_user (user_input : User) : M User :=
  users <- read_users_db ;;
  if Dict.contains users (User.id user_input) then
    raise (HTTPException 400
             ("User with ID " ++ str (User.id user_input) ++ " already exists."))
  else
    let new_user := User.mk (User.id user_input) (User.name user_input) 0%float in
    users_db_setitem (User.id new_user) new_user ;;
    ret new_user.

(** [POST /users/{user_id}/transaction].  [if not user] is taken exactly
    by [None]: a model instance is truthy.  [user] is the object held by
    [users_db], so the update of its balance and the assignment
    [users_db[user_id] = user] that follows are one write of the entry. *)
Definition perform_transaction (user_id : Z) (transaction : Transaction) : M User :=
  user <- find_user_by_id user_id ;;
  match user with
  | None =>
      raise (HTTPException 404 ("User with ID " ++ str user_id ++ " not found."))
  | Some user =>
      if (Transaction.amount transaction <=? 0)%float then
        raise (HTTPException 400 "Transaction amount must be positive.")
      else
        user <-
          match Transaction.type transaction with
          | DEBIT =>
              if (User.balance user <? Transaction.amount transaction)%float then
                raise (HTTPException 400 "Insufficient funds for debit.")
              else
                ret (User.with_balance user
                       (User.balance user - Transaction.amount transaction)%float)
          | CREDIT =>
              ret (User.with_balance user
                     (User.balance user + Transaction.amount transaction)%float)
          end ;;
        users_db_setitem user_id user ;;
        ret user
  end.

(** [POST /users/{user_id}/loan], calling [perform_transaction] directly. *)
Definition take_loan (user_id : Z) (loan_amount : float) : M Loan :=
  user <- find_user_by_id user_id ;;
  match user with
  | None =>
      raise (HTTPException 404 ("User with ID " ++ str user_id ++ " not found."))
  | Some _ =>
      loan <- find_loan_by_user_id user_id ;;
      match loan with
      | Some _ =>
          raise (HTTPException 400
                   ("User " ++ str user_id ++ " already has an active loan."))
      | None =>
          let transaction_to_perform := Transaction.mk CREDIT loan_amount in
          updated_user <-
            try_except (perform_transaction user_id transaction_to_perform)
              (fun e =>
                 match e with
                 | HTTPException _ _ => raise e
                 | Exception msg =>
                     raise (HTTPException 500
                              ("Unexpected error processing transaction for loan: "
                               ++ msg))
                 end) ;;
          let new_loan := Loan.mk user_id loan_amount in
          loans_db_setitem user_id new_loan ;;
          ret new_loan
      end
  end.

(** [GET /users/{user_id}/_internal_loan_info] *)
Definition get_internal_loan_info (user_id : Z) : M (option Loan) :=
  find_loan_by_user_id user_id.

(** [GET /users/{user_id}/balance], over the callee that looks the loan
    up: [except Exception] catches whatever it raises (the warning that
    is printed is not part of the store). *)
Definition balance_and_loan_via (lookup : Z -> M (option Loan)) (user_id : Z)
  : M BalanceResponse :=
  user <- find_user_by_id user_id ;;
  match user with
  | None =>
      raise (HTTPException 404 ("User with ID " ++ str user_id ++ " not found."))
  | Some user =>
      loan_details <- try_except (lookup user_id) (fun _ => ret None) ;;
      ret (BalanceResponse.mk (User.id user) (User.name user) (User.balance user)
             loan_details)
  end.

Definition get_user_balance_and_loan : Z -> M BalanceResponse :=
  balance_and_loan_via get_internal_loan_info.

(** [GET /users] *)
Definition get_all_users : M (list User) :=
  users <- read_users_db ;; ret (Dict.values users).

(** [GET /loans] *)
Definition get_all_loans : M (list Loan) :=
  loans <- read_loans_db ;; ret (Dict.values loans).

(** ** Reference.py

    Its models, dictionaries, helpers, [create_user],
    [perform_transaction] and the list endpoints are those of main.py,
    statement for statement.  It keeps two versions of [take_loan]: the
    first one credits the balance by sending a request to the
    application itself, the second one calls [perform_transaction]. *)
Module Reference.

(** What [TestClient] hands back: the status code and, for an error,
  what [response.json().get('detail', response.text)] formats to. *)
Inductive Response :=
| Response200 (user : User)
| ResponseError (status_code : Z) (detail : string).

Definition status_code (response : Response) : Z :=
  match response with
  | Response200 _ => 200
  | ResponseError c _ => c
  end.

Definition detail (response : Response) : string :=
  match response with
  | Response200 _ => ""
  | ResponseError _ d => d
  end.

(** What the request of the looped-back [take_loan] depends on and the
    repository does not fix, since it pins no version of FastAPI,
    Starlette or httpx:
    - the text FastAPI puts in the body of a 422 answer when the path
      parameter of [/users/{user_id}/transaction] is refused;
    - which floats the test client encodes in the JSON body of a
      request, and which floats the application renders in the JSON
      body of an answer: an encoder run with [allow_nan=False] raises
      [ValueError] for the infinities and NaN, another one writes them
      out;
    - the text of that [ValueError]. *)
Record Transport := {
  validation_detail : Z -> string;
  encodes : float -> bool;
  renders : float -> bool;
  out_of_range : float -> string
}.

(** Every JSON encoder takes the finite floats. *)
Definition takes_finite (transport : Transport) : Prop :=
  forall a, is_finite a = true ->
  encodes transport a = true /\ renders transport a = true.

(** The transport whose two encoders run with [allow_nan=False]. *)
Definition strict_transport : Transport := {|
  validation_detail := fun _ => "";
  encodes := is_finite;
  renders := is_finite;
  out_of_range := fun _ => "Out of range float values are not JSON compliant"
|}.

(** What [TestClient] hands back for
    [GET /users/{user_id}/_internal_loan_info]: with status 200,
    [response.json()] is the loan that was returned, or [None] for the
    body [null]; otherwise only the status code is read. *)
Inductive LoanInfoResponse :=
| LoanInfo200 (loan_data : option Loan)
| LoanInfoError (status_code : Z).

Definition loan_info_status_code (response : LoanInfoResponse) : Z :=
  match response with
  | LoanInfo200 _ => 200
  | LoanInfoError c => c
  end.

Definition loan_info_json (response : LoanInfoResponse) : option Loan :=
  match response with
  | LoanInfo200 loan_data => loan_data
  | LoanInfoError _ => None
  end.

Module Loopback.
Section Loopback.
Variable transport : Transport.

(** [client.post(f"/users/{user_id}/transaction", json=payload)], step
    by step:
    - the client encodes the payload as JSON, and raises [ValueError]
      there, before anything is sent, if its encoder refuses the amount;
      an amount it encodes is decoded by the application to the same
      float;
    - the request goes through the route of [perform_transaction],
      whose path parameter is declared [ge=1]: a [user_id] below 1 is
      answered 422;
    - the handler runs; an [HTTPException] it raises becomes an answer
      with its status code and detail;
    - the user it returns is rendered as JSON for the 200 answer; if the
      renderer refuses the balance it raises [ValueError], after the
      handler has written the store;
    - an exception that is no [HTTPException] is raised again by the
      test client. *)
Definition client_post_transaction (user_id : Z) (payload : Transaction)
  : M Response :=
  if negb (encodes transport (Transaction.amount payload)) then
    raise (Exception (out_of_range transport (Transaction.amount payload)))
  else if user_id <? 1 then
    ret (ResponseError 422 (validation_detail transport user_id))
  else
    try_except
      (user <- perform_transaction user_id payload ;;
       if renders transport (User.balance user) then ret (Response200 user)
       else raise (Exception (out_of_range transport (User.balance user))))
      (fun e =>
         match e with
         | HTTPException c d => ret (ResponseError c d)
         | Exception _ => raise e
         end).

Definition take_loan (user_id : Z) (loan_amount : float) : M Loan :=
  user <- find_user_by_id user_id ;;
  match user with
  | None =>
      raise (HTTPException 404 ("User with ID " ++ str user_id ++ " not found."))
  | Some _ =>
      loan <- find_loan_by_user_id user_id ;;
      match loan with
      | Some _ =>
          raise (HTTPException 400
                   ("User " ++ str user_id ++ " already has an active loan."))
      | None =>
          let transaction_payload := Transaction.mk CREDIT loan_amount in
          response <- client_post_transaction user_id transaction_payload ;;
          if negb (status_code response =? 200) then
            let error_detail :=
              "Failed to credit loan amount to balance. Status: "
              ++ str (status_code response) ++ "." in
            let error_detail := error_detail ++ " Detail: " ++ detail response in
            raise (HTTPException 500 error_detail)
          else
            let new_loan := Loan.mk user_id loan_amount in
            loans_db_setitem user_id new_loan ;;
            ret new_loan
      end
  end.

(** [client.get(f"/users/{user_id}/_internal_loan_info")]: the route
    declares its path parameter [ge=1], like the one of
    [perform_transaction].  The loan in the answer is decoded to the
    loan that was returned: a finite amount travels unchanged.  What
    becomes of an infinite or NaN amount depends on the renderer and is
    not modelled; the properties of this request are stated for stored
    loans of a finite amount, or for a [user_id] below 1, where no loan
    is sent. *)
Definition client_get_internal_loan_info (user_id : Z) : M LoanInfoResponse :=
  if user_id <? 1 then ret (LoanInfoError 422)
  else
    try_except
      (loan <- get_internal_loan_info user_id ;; ret (LoanInfo200 loan))
      (fun e =>
         match e with
         | HTTPException c _ => ret (LoanInfoError c)
         | Exception _ => raise e
         end).

(** The first [get_user_balance_and_loan] of Reference.py.
    [if loan_data] is taken by a loan and not by [None]: the dictionary
    of a loan is not empty.  The warning printed for a status other
    than 200 is not part of the store. *)
Definition get_user_balance_and_loan (user_id : Z) : M BalanceResponse :=
  user <- find_user_by_id user_id ;;
  match user with
  | None =>
      raise (HTTPException 404 ("User with ID " ++ str user_id ++ " not found."))
  | Some user =>
      let loan_details : option Loan := None in
      response <- client_get_internal_loan_info user_id ;;
      let loan_details :=
        if loan_info_status_code response =? 200 then
          match loan_info_json response with
          | Some loan_data =>
              Some (Loan.mk (Loan.user_id loan_data) (Loan.amount loan_data))
          | None => loan_details
          end
        else None in
      ret (BalanceResponse.mk (User.id user) (User.name user) (User.balance user)
             loan_details)
  end.
End Loopback.
End Loopback.

Module Direct.
Definition take_loan (user_id : Z) (loan_amount : float) : M Loan :=
  user <- find_user_by_id user_id ;;
  match user with
  | None =>
      raise (HTTPException 404 ("User with ID " ++ str user_id ++ " not found."))
  | Some _ =>
      loan <- find_loan_by_user_id user_id ;;
      match loan with
      | Some _ =>
          raise (HTTPException 400
                   ("User " ++ str user_id ++ " already has an active loan."))
      | None =>
          let transaction_to_perform := Transaction.mk CREDIT loan_amount in
          updated_user <-
            try_except (perform_transaction user_id transaction_to_perform)
              (fun e =>
                 match e with
                 | HTTPException _ _ => raise e
                 | Exception msg =>
                     raise (HTTPException 500
                              ("Unexpected error processing transaction for loan: "
                               ++ msg))
                 end) ;;
          let new_loan := Loan.mk user_id loan_amount in
          loans_db_setitem user_id new_loan ;;
          ret new_loan
      end
  end.
End Direct.

End Reference.

(** ** Requests and reachable stores *)

(** One call of an endpoint of main.py. *)
Inductive Op :=
| CreateUser (user_input : User)
| PerformTransaction (user_id : Z) (transaction : Transaction)
| TakeLoan (user_id : Z) (loan_amount : float)
| GetInternalLoanInfo (user_id : Z)
| GetUserBalanceAndLoan (user_id : Z)
| GetAllUsers
| GetAllLoans.

(** The store a call leaves, whether it returned or raised. *)
Definition exec (op : Op) (s : Store) : Store :=
  match op with
  | CreateUser user_input => snd (create_user user_input s)
  | PerformTransaction user_id transaction =>
      snd (perform_transaction user_id transaction s)
  | TakeLoan user_id loan_amount => snd (take_loan user_id loan_amount s)
  | GetInternalLoanInfo user_id => snd (get_internal_loan_info user_id s)
  | GetUserBalanceAndLoan user_id => snd (get_user_balance_and_loan user_id s)
  | GetAllUsers => snd (get_all_users s)
  | GetAllLoans => snd (get_all_loans s)
  end.

Definition run (ops : list Op) (s : Store) : Store :=
  fold_left (fun s op => exec op s) ops s.

(** The stores the service can be in: it starts with both dictionaries
    empty and serves one call after another. *)
Inductive Reachable : Store -> Prop :=
| Reachable_start : Reachable empty_store
| Reachable_step op s : Reachable s -> Reachable (exec op s).

(** ** The vocabulary of the specification *)

(** The failure outcomes, by the exception the code raises for each. *)
Definition AlreadyExists (id : Z) : exn :=
  HTTPException 400 ("User with ID " ++ str id ++ " already exists.").

Definition NotFound (user_id : Z) : exn :=
  HTTPException 404 ("User with ID " ++ str user_id ++ " not found.").

Definition InvalidAmount : exn :=
  HTTPException 400 "Transaction amount must be positive.".

Definition InsufficientFunds : exn :=
  HTTPException 400 "Insufficient funds for debit.".

Definition AlreadyHasLoan (user_id : Z) : exn :=
  HTTPException 400 ("User " ++ str user_id ++ " already has an active loan.").

(** The exception the looped-back [take_loan] of Reference.py raises when
    its request for the credit is answered with a status other than 200. *)
Definition CreditFailed (status_code : Z) (detail : string) : exn :=
  HTTPException 500
    (("Failed to credit loan amount to balance. Status: " ++ str status_code ++ ".")
     ++ " Detail: " ++ detail).

(** [0 <= x] on the specification of binary64 numbers, which the
    primitive operations are axiomatised to follow. *)
Definition SF_non_negative (x : spec_float) : bool := SFleb (S754_zero false) x.

(** [balance >= 0], as Python evaluates it on a float. *)
Definition non_negative (balance : float) : bool := (0 <=? balance)%float.

Definition balances_non_negative (s : Store) : bool :=
  forallb (fun u => non_negative (User.balance u)) (Dict.values (users_db s)).

(** The loans [GET /loans] lists for one user. *)
Definition loans_of (user_id : Z) (s : Store) : list Loan :=
  filter (fun l => Loan.user_id l =? user_id) (Dict.values (loans_db s)).

(** The amount a call carries, when it carries one. *)
Definition amount_of (op : Op) : option float :=
  match op with
  | PerformTransaction _ transaction => Some (Transaction.amount transaction)
  | TakeLoan _ loan_amount => Some loan_amount
  | _ => None
  end.

(** Calls whose amount, if any, is a finite number (neither an infinity
    nor NaN). *)
Definition finite_amount (op : Op) : bool :=
  match amount_of op with
  | Some a => is_finite a
  | None => true
  end.

(** Each key of [loans_db] occurs once, and the loan filed under a key
    is a loan of that user. *)
Definition loans_keyed (s : Store) : Prop :=
  NoDup (Dict.keys (loans_db s))
  /\ forall k loan, In (k, loan) (loans_db s) -> Loan.user_id loan = k.

(** The exception of an outcome, if it is one. *)
Definition exn_of {A} (o : outcome A) : option exn :=
  match o with
  | Return _ => None
  | Raise e => Some e
  end.

(** What a call raises, if it raises. *)
Definition raised (op : Op) (s : Store) : option exn :=
  match op with
  | CreateUser user_input => exn_of (fst (create_user user_input s))
  | PerformTransaction user_id transaction =>
      exn_of (fst (perform_transaction user_id transaction s))
  | TakeLoan user_id loan_amount => exn_of (fst (take_loan user_id loan_amount s))
  | GetInternalLoanInfo user_id => exn_of (fst (get_internal_loan_info user_id s))
  | GetUserBalanceAndLoan user_id =>
      exn_of (fst (get_user_balance_and_loan user_id s))
  | GetAllUsers => exn_of (fst (get_all_users s))
  | GetAllLoans => exn_of (fst (get_all_loans s))
  end.

(** What of a user no call changes: its identifier and its name. *)
Definition identity (user : User) : Z * string := (User.id user, User.name user).

(** Each key of [users_db] occurs once, and the user filed under a key
    has that identifier. *)
Definition users_keyed (s : Store) : Prop :=
  NoDup (Dict.keys (users_db s))
  /\ forall k user, In (k, user) (users_db s) -> User.id user = k.

(** Each loan is filed under the key of a stored user. *)
Definition loans_have_users (s : Store) : Prop :=
  forall k loan, Dict.get (loans_db s) k = Some loan ->
  exists user, Dict.get (users_db s) k = Some user.

(** No loan of a zero or negative amount: each stored amount fails the
    test [amount <= 0]. *)
Definition loans_amounts_checked (s : Store) : Prop :=
  forall k loan, In (k, loan) (loans_db s) -> (Loan.amount loan <=? 0)%float = false.

(** * Properties *)

(** ** The dictionary *)

Module DictFacts.
Section DictFacts.
Context {V : Type}.
Implicit Types (d : Dict.t V) (k : Z) (v : V).

Lemma get_set_same d k v : Dict.get (Dict.set d k v) k = Some v.
Proof.
  induction d as [|[k' v'] d IH]; simpl.
  - now rewrite Z.eqb_refl.
  - destruct (k =? k') eqn:E; simpl; rewrite E; auto.
Qed.

Lemma get_set_other d k k' v :
  k' <> k -> Dict.get (Dict.set d k v) k' = Dict.get d k'.
Proof.
  intros Hne; induction d as [|[k0 v0] d IH]; simpl.
  - destruct (k' =? k) eqn:E; [apply Z.eqb_eq in E; contradiction | reflexivity].
  - destruct (k =? k0) eqn:E; simpl.
    + apply Z.eqb_eq in E; subst k0.
      destruct (k' =? k) eqn:E'; [apply Z.eqb_eq in E'; contradiction | reflexivity].
    + now rewrite IH.
Qed.

Lemma get_In d k v : Dict.get d k = Some v -> In (k, v) d.
Proof.
  induction d as [|[k' v'] d IH]; simpl; [discriminate|].
  destruct (k =? k') eqn:E.
  - apply Z.eqb_eq in E; subst; intros [= ->]; now left.
  - intros H; right; auto.
Qed.

Lemma get_None_keys d k : Dict.get d k = None -> ~ In k (Dict.keys d).
Proof.
  induction d as [|[k' v'] d IH]; simpl; [tauto|].
  destruct (k =? k') eqn:E; [discriminate|].
  apply Z.eqb_neq in E. intros H [H1|H1]; [congruence | now apply IH].
Qed.

(** Assigning to a key that is present keeps the keys and their order;
    a new key goes last. *)
Lemma keys_set d k v :
  Dict.keys (Dict.set d k v) =
  if Dict.contains d k then Dict.keys d else (Dict.keys d ++ [k])%list.
Proof.
  unfold Dict.contains.
  induction d as [|[k' v'] d IH]; simpl; [reflexivity|].
  destruct (k =? k') eqn:E; simpl; [reflexivity|].
  rewrite IH. now destruct (Dict.get d k).
Qed.

Lemma keys_set_NoDup d k v :
  NoDup (Dict.keys d) -> NoDup (Dict.keys (Dict.set d k v)).
Proof.
  intros Hnd. rewrite keys_set. unfold Dict.contains.
  destruct (Dict.get d k) eqn:E; [assumption|].
  apply get_None_keys in E.
  apply NoDup_app; [assumption | repeat constructor; simpl; tauto |].
  intros x Hin [<-|[]]. contradiction.
Qed.

Lemma In_set d k v k' v' :
  In (k', v') (Dict.set d k v) -> (k' = k /\ v' = v) \/ In (k', v') d.
Proof.
  induction d as [|[k0 v0] d IH]; simpl.
  - intros [[= <- <-]|[]]; now left.
  - destruct (k =? k0) eqn:E; simpl.
    + apply Z.eqb_eq in E; subst k0.
      intros [[= <- <-]|H]; [now left | right; now right].
    + intros [H|H]; [right; now left|].
      destruct (IH H) as [?|?]; [now left | right; now right].
Qed.
End DictFacts.
End DictFacts.

(** ** Running a handler *)

(** Unfolds the handlers down to the store they read and write. *)
Ltac run_py :=
  unfold take_loan, Reference.Direct.take_loan, Reference.Loopback.take_loan,
    Reference.Loopback.client_post_transaction,
    get_user_balance_and_loan, balance_and_loan_via, get_internal_loan_info,
    get_all_users, get_all_loans, perform_transaction, create_user,
    find_user_by_id, find_loan_by_user_id,
    users_db_setitem, loans_db_setitem, read_users_db, read_loans_db,
    try_except, bind, ret, raise;
  simpl.

Lemma contains_get {V} (d : Dict.t V) k :
  Dict.contains d k = true <-> exists v, Dict.get d k = Some v.
Proof.
  unfold Dict.contains; destruct (Dict.get d k); split; eauto.
  - discriminate.
  - intros [? [=]].
Qed.

(** What [perform_transaction] does, branch by branch. *)
Lemma perform_transaction_eq user_id transaction s :
  perform_transaction user_id transaction s =
  match Dict.get (users_db s) user_id with
  | None => (Raise (NotFound user_id), s)
  | Some user =>
      if (Transaction.amount transaction <=? 0)%float then (Raise InvalidAmount, s)
      else
        match Transaction.type transaction with
        | DEBIT =>
            if (User.balance user <? Transaction.amount transaction)%float then
              (Raise InsufficientFunds, s)
            else
              let user' :=
                User.with_balance user
                  (User.balance user - Transaction.amount transaction)%float in
              (Return user',
               mkStore (Dict.set (users_db s) user_id user') (loans_db s))
        | CREDIT =>
            let user' :=
              User.with_balance user
                (User.balance user + Transaction.amount transaction)%float in
            (Return user',
             mkStore (Dict.set (users_db s) user_id user') (loans_db s))
        end
  end.
Proof.
  run_py. destruct (Dict.get (users_db s) user_id) as [user|]; [|reflexivity].
  destruct (Transaction.amount transaction <=? 0)%float; [reflexivity|].
  destruct (Transaction.type transaction); [|reflexivity].
  now destruct (User.balance user <? Transaction.amount transaction)%float.
Qed.

(** A call of [perform_transaction] that raises leaves the store as it
    found it. *)
Lemma perform_transaction_raise user_id transaction s e s' :
  perform_transaction user_id transaction s = (Raise e, s') -> s' = s.
Proof.
  rewrite perform_transaction_eq.
  destruct (Dict.get (users_db s) user_id) as [user|]; [|congruence].
  destruct (Transaction.amount transaction <=? 0)%float; [congruence|].
  destruct (Transaction.type transaction); [|discriminate].
  destruct (User.balance user <? Transaction.amount transaction)%float;
    [congruence | discriminate].
Qed.

(** [perform_transaction] raises nothing but [HTTPException]. *)
Lemma perform_transaction_http user_id transaction s e s' :
  perform_transaction user_id transaction s = (Raise e, s') ->
  exists status_code detail, e = HTTPException status_code detail.
Proof.
  rewrite perform_transaction_eq. unfold NotFound, InvalidAmount, InsufficientFunds.
  destruct (Dict.get (users_db s) user_id) as [user|]; [|intros [= <- _]; eauto].
  destruct (Transaction.amount transaction <=? 0)%float; [intros [= <- _]; eauto|].
  destruct (Transaction.type transaction); [|discriminate].
  destruct (User.balance user <? Transaction.amount transaction)%float;
    [intros [= <- _]; eauto | discriminate].
Qed.

(** What [take_loan] does, in terms of the credit it asks for. *)
Lemma take_loan_eq user_id loan_amount s :
  take_loan user_id loan_amount s =
  match Dict.get (users_db s) user_id, Dict.get (loans_db s) user_id with
  | None, _ => (Raise (NotFound user_id), s)
  | Some _, Some _ => (Raise (AlreadyHasLoan user_id), s)
  | Some _, None =>
      match perform_transaction user_id (Transaction.mk CREDIT loan_amount) s with
      | (Return _, s1) =>
          let new_loan := Loan.mk user_id loan_amount in
          (Return new_loan,
           mkStore (users_db s1) (Dict.set (loans_db s1) user_id new_loan))
      | (Raise e, s1) => (Raise e, s1)
      end
  end.
Proof.
  unfold take_loan, find_user_by_id, find_loan_by_user_id, read_users_db,
    read_loans_db, loans_db_setitem, try_except, bind, ret, raise; simpl.
  destruct (Dict.get (users_db s) user_id) as [user|]; [|reflexivity].
  destruct (Dict.get (loans_db s) user_id); [reflexivity|].
  destruct (perform_transaction user_id (Transaction.mk CREDIT loan_amount) s)
    as [[u|e] s1] eqn:Hp; [reflexivity|].
  now destruct (perform_transaction_http _ _ _ _ _ Hp) as (c & d & ->).
Qed.

(** ** create_user *)

Lemma create_user_eq (user_input : User) (s : Store) :
  create_user user_input s =
  if Dict.contains (users_db s) (User.id user_input) then
    (Raise (AlreadyExists (User.id user_input)), s)
  else
    let new_user := User.mk (User.id user_input) (User.name user_input) 0%float in
    (Return new_user,
     mkStore (Dict.set (users_db s) (User.id user_input) new_user) (loans_db s)).
Proof.
  run_py. now destruct (Dict.contains (users_db s) (User.id user_input)).
Qed.

(** C5. [create_user] raises AlreadyExists when the identifier is in
    [users_db], and then the store, hence the record kept under that
    identifier, is as before; otherwise it stores under the identifier
    a user with the given identifier and name and a balance of exactly
    [0.0], whatever balance [user_input] carried, and returns the user it
    stored. *)
Theorem create_user_spec (user_input : User) (s : Store) :
  (Dict.contains (users_db s) (User.id user_input) = true ->
   create_user user_input s = (Raise (AlreadyExists (User.id user_input)), s))
  /\
  (Dict.contains (users_db s) (User.id user_input) = false ->
   let new_user := User.mk (User.id user_input) (User.name user_input) 0%float in
   create_user user_input s =
     (Return new_user,
      mkStore (Dict.set (users_db s) (User.id user_input) new_user) (loans_db s))
   /\ Dict.get (users_db (snd (create_user user_input s))) (User.id user_input)
      = Some new_user).
Proof.
  rewrite create_user_eq.
  split; intros ->; [reflexivity|].
  split; [reflexivity|]. simpl. apply DictFacts.get_set_same.
Qed.

(** The second of two creations with one identifier fails and the first
    record stays, with any names and balances in the two requests. *)
Lemma create_user_twice (id : Z) (name1 name2 : string) (b1 b2 : float) (s : Store) :
  Dict.contains (users_db s) id = false ->
  let s1 := snd (create_user (User.mk id name1 b1) s) in
  create_user (User.mk id name2 b2) s1 = (Raise (AlreadyExists id), s1)
  /\ Dict.get (users_db s1) id = Some (User.mk id name1 0%float).
Proof.
  intros H s1.
  assert (Hget : Dict.get (users_db s1) id = Some (User.mk id name1 0%float)).
  { subst s1. rewrite create_user_eq. simpl. rewrite H. simpl.
    apply DictFacts.get_set_same. }
  split; [|exact Hget].
  rewrite create_user_eq. simpl.
  now replace (Dict.contains (users_db s1) id) with true
    by (symmetry; apply contains_get; eauto).
Qed.

(** ** perform_transaction *)

(** An accepted credit or debit need not move the balance by its amount:
    at a balance of [1e16], where neighbouring floats are 2 apart, a
    credit of [1.0] and a debit of [1.0] are both accepted and both
    leave the balance, and the whole store, as they were.  C3 fails
    there. *)
Lemma credit_and_debit_can_leave_the_balance :
  let s := run [CreateUser (User.mk 1 "Alice" 0%float);
                PerformTransaction 1 (Transaction.mk CREDIT 1e16%float)]
             empty_store in
  Dict.get (users_db s) 1 = Some (User.mk 1 "Alice" 1e16%float)
  /\ perform_transaction 1 (Transaction.mk CREDIT 1%float) s
     = (Return (User.mk 1 "Alice" 1e16%float), s)
  /\ perform_transaction 1 (Transaction.mk DEBIT 1%float) s
     = (Return (User.mk 1 "Alice" 1e16%float), s)
  /\ (1e16 + 1 - 1e16 =? 1)%float = false
  /\ (1e16 - (1e16 - 1) =? 1)%float = false.
Proof. repeat split. Qed.

(** C3, amended. [perform_transaction] raises NotFound when no user is
    stored under [user_id]; for a stored user it raises InvalidAmount
    when [amount <= 0], for a debit and for a credit alike; past that
    check a debit raises InsufficientFunds when [balance < amount] and
    otherwise stores the binary64 difference [balance - amount], and a
    credit stores the binary64 sum [balance + amount], that is the
    exact result rounded to a float, which need not differ from the old
    balance by [amount]; the user it returns is the one it stored;
    whenever it raises, the store is the one it started from. *)
Theorem perform_transaction_spec
  (user_id : Z) (type : TransactionType) (amount : float) (s : Store) :
  let call := perform_transaction user_id (Transaction.mk type amount) s in
  (Dict.get (users_db s) user_id = None ->
   call = (Raise (NotFound user_id), s))
  /\
  (forall user, Dict.get (users_db s) user_id = Some user ->
     (amount <=? 0)%float = true ->
   call = (Raise InvalidAmount, s))
  /\
  (forall user, Dict.get (users_db s) user_id = Some user ->
     (amount <=? 0)%float = false ->
     type = DEBIT -> (User.balance user <? amount)%float = true ->
   call = (Raise InsufficientFunds, s))
  /\
  (forall user, Dict.get (users_db s) user_id = Some user ->
     (amount <=? 0)%float = false ->
     type = DEBIT -> (User.balance user <? amount)%float = false ->
   let user' := User.mk (User.id user) (User.name user)
                  (User.balance user - amount)%float in
   call = (Return user', mkStore (Dict.set (users_db s) user_id user') (loans_db s))
   /\ Dict.get (users_db (snd call)) user_id = Some user')
  /\
  (forall user, Dict.get (users_db s) user_id = Some user ->
     (amount <=? 0)%float = false ->
     type = CREDIT ->
   let user' := User.mk (User.id user) (User.name user)
                  (User.balance user + amount)%float in
   call = (Return user', mkStore (Dict.set (users_db s) user_id user') (loans_db s))
   /\ Dict.get (users_db (snd call)) user_id = Some user')
  /\
  (forall e s', call = (Raise e, s') -> s' = s).
Proof.
  intros call. subst call.
  repeat match goal with |- _ /\ _ => split end.
  - intros H. now rewrite perform_transaction_eq, H.
  - intros user H Ha. now rewrite perform_transaction_eq, H; simpl; rewrite Ha.
  - intros user H Ha -> Hb.
    now rewrite perform_transaction_eq, H; simpl; rewrite Ha, Hb.
  - intros user H Ha -> Hb user'.
    rewrite perform_transaction_eq, H; simpl; rewrite Ha, Hb.
    split; [reflexivity|]. simpl. apply DictFacts.get_set_same.
  - intros user H Ha -> user'.
    rewrite perform_transaction_eq, H; simpl; rewrite Ha.
    split; [reflexivity|]. simpl. apply DictFacts.get_set_same.
  - intros e s'. apply perform_transaction_raise.
Qed.

(** ** take_loan *)


(** [amount > 0] rules [amount <= 0] out, on floats too. *)
Lemma positive_not_le_zero (a : float) :
  (0 <? a)%float = true -> (a <=? 0)%float = false.
Proof.
  rewrite ltb_spec, leb_spec. change (Prim2SF 0) with (S754_zero false).
  unfold SFltb, SFleb.
  destruct (Prim2SF a) as [sa|sa| |sa m e]; simpl; try discriminate;
    destruct sa; simpl; congruence.
Qed.

(** The scenario of the specification: Alice is created, credited 100,
    debited 30, lent 50 and refused a second loan. *)
Example alice_scenario :
  let s1 := exec (CreateUser (User.mk 1 "Alice" 0%float)) empty_store in
  let s2 := exec (PerformTransaction 1 (Transaction.mk CREDIT 100%float)) s1 in
  let s3 := exec (PerformTransaction 1 (Transaction.mk DEBIT 30%float)) s2 in
  let s4 := exec (TakeLoan 1 50%float) s3 in
  Dict.get (users_db s1) 1 = Some (User.mk 1 "Alice" 0%float)
  /\ Dict.get (users_db s2) 1 = Some (User.mk 1 "Alice" 100%float)
  /\ Dict.get (users_db s3) 1 = Some (User.mk 1 "Alice" 70%float)
  /\ take_loan 1 50%float s3 = (Return (Loan.mk 1 50%float), s4)
  /\ Dict.get (users_db s4) 1 = Some (User.mk 1 "Alice" 120%float)
  /\ Dict.get (loans_db s4) 1 = Some (Loan.mk 1 50%float)
  /\ take_loan 1 10%float s4 = (Raise (AlreadyHasLoan 1), s4)
  /\ fst (get_user_balance_and_loan 1 s4)
     = Return (BalanceResponse.mk 1 "Alice" 120%float (Some (Loan.mk 1 50%float))).
Proof. repeat split. Qed.

(** What is refused in that scenario, each time with the store left as
    it was. *)
Example alice_refusals :
  let s := mkStore [(1, User.mk 1 "Alice" 70%float)] [] in
  perform_transaction 1 (Transaction.mk DEBIT 71%float) s
    = (Raise InsufficientFunds, s)
  /\ perform_transaction 1 (Transaction.mk DEBIT 0%float) s
      = (Raise InvalidAmount, s)
  /\ perform_transaction 1 (Transaction.mk CREDIT (-3)%float) s
      = (Raise InvalidAmount, s)
  /\ perform_transaction 2 (Transaction.mk CREDIT 5%float) s
      = (Raise (NotFound 2), s)
  /\ take_loan 2 50%float s = (Raise (NotFound 2), s)
  /\ take_loan 1 0%float s = (Raise InvalidAmount, s)
  /\ create_user (User.mk 1 "Bob" 9%float) s = (Raise (AlreadyExists 1), s)
  /\ get_user_balance_and_loan 2 s = (Raise (NotFound 2), s)
  /\ get_user_balance_and_loan 1 s
      = (Return (BalanceResponse.mk 1 "Alice" 70%float None), s).
Proof. repeat split. Qed.

(** ** get_user_balance_and_loan *)

Lemma balance_and_loan_via_eq lookup user_id s :
  balance_and_loan_via lookup user_id s =
  match Dict.get (users_db s) user_id with
  | None => (Raise (NotFound user_id), s)
  | Some user =>
      match lookup user_id s with
      | (Return loan_details, s') =>
          (Return (BalanceResponse.mk (User.id user) (User.name user)
                     (User.balance user) loan_details), s')
      | (Raise _, s') =>
          (Return (BalanceResponse.mk (User.id user) (User.name user)
                     (User.balance user) None), s')
      end
  end.
Proof.
  run_py. destruct (Dict.get (users_db s) user_id) as [user|]; [|reflexivity].
  now destruct (lookup user_id s) as [[l|e] s'].
Qed.

(** C6. [get_user_balance_and_loan] raises NotFound when no user is
    stored under [user_id], and raises in no other case; for a stored
    user it returns the user's id, name and balance with the loan stored
    for [user_id], which is [None] when there is none; and were the loan
    lookup it calls to raise, the answer would still be returned, with
    no loan details. *)
Theorem get_user_balance_and_loan_spec (user_id : Z) (s : Store) :
  (Dict.get (users_db s) user_id = None ->
   get_user_balance_and_loan user_id s = (Raise (NotFound user_id), s))
  /\
  (forall e s', get_user_balance_and_loan user_id s = (Raise e, s') ->
   Dict.get (users_db s) user_id = None)
  /\
  (forall user, Dict.get (users_db s) user_id = Some user ->
   get_user_balance_and_loan user_id s =
     (Return (BalanceResponse.mk (User.id user) (User.name user)
                (User.balance user) (Dict.get (loans_db s) user_id)), s))
  /\
  (forall (lookup : Z -> M (option Loan)) user e s',
     Dict.get (users_db s) user_id = Some user ->
     lookup user_id s = (Raise e, s') ->
   balance_and_loan_via lookup user_id s =
     (Return (BalanceResponse.mk (User.id user) (User.name user)
                (User.balance user) None), s')).
Proof.
  unfold get_user_balance_and_loan.
  repeat match goal with |- _ /\ _ => split end.
  - intros H. now rewrite balance_and_loan_via_eq, H.
  - intros e s'. rewrite balance_and_loan_via_eq.
    destruct (Dict.get (users_db s) user_id); [|reflexivity].
    now destruct (get_internal_loan_info user_id s) as [[l|e'] s''].
  - intros user H. now rewrite balance_and_loan_via_eq, H.
  - intros lookup user e s' H Hl. now rewrite balance_and_loan_via_eq, H, Hl.
Qed.

(** ** What a call leaves alone *)

Lemma perform_transaction_users user_id transaction s k :
  k <> user_id ->
  Dict.get (users_db (snd (perform_transaction user_id transaction s))) k
  = Dict.get (users_db s) k.
Proof.
  intros Hk. rewrite perform_transaction_eq.
  destruct (Dict.get (users_db s) user_id) as [user|]; [|reflexivity].
  destruct (Transaction.amount transaction <=? 0)%float; [reflexivity|].
  destruct (Transaction.type transaction); simpl.
  - destruct (User.balance user <? Transaction.amount transaction)%float;
      simpl; [reflexivity | now apply DictFacts.get_set_other].
  - now apply DictFacts.get_set_other.
Qed.

Lemma perform_transaction_loans user_id transaction s :
  loans_db (snd (perform_transaction user_id transaction s)) = loans_db s.
Proof.
  rewrite perform_transaction_eq.
  destruct (Dict.get (users_db s) user_id) as [user|]; [|reflexivity].
  destruct (Transaction.amount transaction <=? 0)%float; [reflexivity|].
  destruct (Transaction.type transaction); simpl; [|reflexivity].
  now destruct (User.balance user <? Transaction.amount transaction)%float.
Qed.

(** The loans after [take_loan]: as before, or with the new loan filed
    under a key that had none. *)
Lemma take_loan_loans user_id loan_amount s :
  loans_db (snd (take_loan user_id loan_amount s)) = loans_db s
  \/ (Dict.get (loans_db s) user_id = None
      /\ loans_db (snd (take_loan user_id loan_amount s))
         = Dict.set (loans_db s) user_id (Loan.mk user_id loan_amount)).
Proof.
  rewrite take_loan_eq.
  destruct (Dict.get (users_db s) user_id) as [user|]; [|now left].
  destruct (Dict.get (loans_db s) user_id) eqn:Hl; [now left|].
  pose proof (perform_transaction_loans user_id (Transaction.mk CREDIT loan_amount) s)
    as Hp.
  destruct (perform_transaction user_id (Transaction.mk CREDIT loan_amount) s)
    as [[u|e] s1]; simpl in *.
  - right. rewrite Hp. now split.
  - left. exact Hp.
Qed.

Lemma take_loan_users user_id loan_amount s k :
  k <> user_id ->
  Dict.get (users_db (snd (take_loan user_id loan_amount s))) k
  = Dict.get (users_db s) k.
Proof.
  intros Hk. rewrite take_loan_eq.
  destruct (Dict.get (users_db s) user_id) as [user|]; [|reflexivity].
  destruct (Dict.get (loans_db s) user_id); [reflexivity|].
  pose proof (perform_transaction_users user_id (Transaction.mk CREDIT loan_amount)
                s k Hk) as Hp.
  now destruct (perform_transaction user_id (Transaction.mk CREDIT loan_amount) s)
    as [[u|e] s1].
Qed.

Lemma read_only_calls s :
  (forall user_id, snd (get_user_balance_and_loan user_id s) = s)
  /\ (forall user_id, snd (get_internal_loan_info user_id s) = s)
  /\ snd (get_all_users s) = s
  /\ snd (get_all_loans s) = s.
Proof.
  repeat split; intros; run_py; try reflexivity.
  now destruct (Dict.get (users_db s) user_id).
Qed.

(** C10. [create_user] leaves the loans and every user entry but the one
    of the new identifier; [perform_transaction] leaves the loans and
    every user entry but the one of [user_id]; [take_loan] leaves every
    user entry and every loan entry but those of [user_id];
    [get_user_balance_and_loan], [get_internal_loan_info],
    [get_all_users] and [get_all_loans] leave the store as it is. *)
Theorem calls_touch_their_user_only (s : Store) :
  (forall user_input,
     let s' := snd (create_user user_input s) in
     loans_db s' = loans_db s
     /\ forall k, k <> User.id user_input ->
          Dict.get (users_db s') k = Dict.get (users_db s) k)
  /\
  (forall user_id transaction,
     let s' := snd (perform_transaction user_id transaction s) in
     loans_db s' = loans_db s
     /\ forall k, k <> user_id ->
          Dict.get (users_db s') k = Dict.get (users_db s) k)
  /\
  (forall user_id loan_amount,
     let s' := snd (take_loan user_id loan_amount s) in
     forall k, k <> user_id ->
       Dict.get (users_db s') k = Dict.get (users_db s) k
       /\ Dict.get (loans_db s') k = Dict.get (loans_db s) k)
  /\
  (forall user_id, snd (get_user_balance_and_loan user_id s) = s)
  /\
  (forall user_id, snd (get_internal_loan_info user_id s) = s)
  /\ snd (get_all_users s) = s
  /\ snd (get_all_loans s) = s.
Proof.
  split; [|split; [|split; [|apply read_only_calls]]].
  - intros user_input s'. subst s'. rewrite create_user_eq.
    destruct (Dict.contains (users_db s) (User.id user_input)); simpl.
    + now split.
    + split; [reflexivity|]. intros k Hk. now apply DictFacts.get_set_other.
  - intros user_id transaction s'. subst s'. split.
    + apply perform_transaction_loans.
    + intros k Hk. now apply perform_transaction_users.
  - intros user_id loan_amount s' k Hk. subst s'. split.
    + now apply take_loan_users.
    + destruct (take_loan_loans user_id loan_amount s) as [->|[_ ->]];
        [reflexivity | now apply DictFacts.get_set_other].
Qed.

(** ** Loans stay *)

Lemma exec_loans op s :
  loans_db (exec op s) = loans_db s
  \/ exists user_id loan_amount,
       Dict.get (loans_db s) user_id = None
       /\ loans_db (exec op s)
          = Dict.set (loans_db s) user_id (Loan.mk user_id loan_amount).
Proof.
  destruct op; unfold exec.
  - left. rewrite create_user_eq.
    now destruct (Dict.contains (users_db s) (User.id user_input)).
  - left. apply perform_transaction_loans.
  - destruct (take_loan_loans user_id loan_amount s) as [H|H]; [now left|].
    right; eauto.
  - left. now rewrite (proj1 (proj2 (read_only_calls s))).
  - left. now rewrite (proj1 (read_only_calls s)).
  - left. now rewrite (proj1 (proj2 (proj2 (read_only_calls s)))).
  - left. now rewrite (proj2 (proj2 (proj2 (read_only_calls s)))).
Qed.

Lemma exec_keeps_loan op s user_id loan :
  Dict.get (loans_db s) user_id = Some loan ->
  Dict.get (loans_db (exec op s)) user_id = Some loan.
Proof.
  intros H. destruct (exec_loans op s) as [->|(k & a & Hk & ->)]; [exact H|].
  rewrite DictFacts.get_set_other; [exact H | congruence].
Qed.

Lemma run_keeps_loan ops s user_id loan :
  Dict.get (loans_db s) user_id = Some loan ->
  Dict.get (loans_db (run ops s)) user_id = Some loan.
Proof.
  revert s. induction ops as [|op ops IH]; intros s H; simpl; [exact H|].
  apply IH. now apply exec_keeps_loan.
Qed.

Lemma exec_loans_keyed op s : loans_keyed s -> loans_keyed (exec op s).
Proof.
  intros [Hnd Hid]. unfold loans_keyed.
  destruct (exec_loans op s) as [->|(k & a & Hk & ->)]; [now split|].
  split; [now apply DictFacts.keys_set_NoDup|].
  intros k' loan Hin. apply DictFacts.In_set in Hin as [[-> ->]|Hin]; auto.
Qed.

Lemma Reachable_run ops s : Reachable s -> Reachable (run ops s).
Proof.
  revert s. induction ops as [|op ops IH]; intros s H; simpl; [exact H|].
  apply IH. now constructor.
Qed.

Lemma run_snoc ops op s : run (ops ++ [op]) s = exec op (run ops s).
Proof. unfold run. now rewrite fold_left_app. Qed.

Lemma Reachable_is_run s : Reachable s <-> exists ops, s = run ops empty_store.
Proof.
  split.
  - induction 1 as [|op s _ [ops ->]]; [now exists []|].
    exists (ops ++ [op])%list. now rewrite run_snoc.
  - intros [ops ->]. apply Reachable_run. constructor.
Qed.

Lemma Reachable_loans_keyed s : Reachable s -> loans_keyed s.
Proof.
  induction 1 as [|op s _ IH].
  - split; [constructor | intros k loan []].
  - now apply exec_loans_keyed.
Qed.

(** With its keys in order, [loans_db] lists for a user the loan filed
    under the user's key, and nothing else. *)
Lemma loans_of_keyed user_id s :
  loans_keyed s ->
  loans_of user_id s =
  match Dict.get (loans_db s) user_id with Some loan => [loan] | None => [] end.
Proof.
  unfold loans_keyed, loans_of. generalize (loans_db s) as d.
  induction d as [|[k loan] d IH]; intros [Hnd Hid]; simpl; [reflexivity|].
  assert (Hnd' : NoDup (Dict.keys d)) by now inversion Hnd.
  assert (Hnotin : ~ In k (Dict.keys d)) by now inversion Hnd.
  assert (Hloan : Loan.user_id loan = k) by (apply Hid; now left).
  assert (IH' := IH (conj Hnd' (fun k' l' H => Hid k' l' (or_intror H)))).
  rewrite Hloan, (Z.eqb_sym k user_id).
  destruct (user_id =? k) eqn:E; [|exact IH'].
  apply Z.eqb_eq in E. rewrite IH'.
  destruct (Dict.get d user_id) as [l|] eqn:Hget; [|reflexivity].
  exfalso. apply Hnotin. rewrite <- E. apply DictFacts.get_In in Hget.
  apply (in_map fst) in Hget. exact Hget.
Qed.

(** C9. In a reachable store [GET /loans] lists at most one loan per
    user; and a loan stored for a user is still stored for that user,
    the same record with the same amount, after any further calls of
    the endpoints, and is then the one loan listed for that user. *)
Theorem loans_are_never_touched (s : Store) (user_id : Z) :
  Reachable s ->
  (List.length (loans_of user_id s) <= 1)%nat
  /\ forall loan, Dict.get (loans_db s) user_id = Some loan ->
     forall ops,
       Dict.get (loans_db (run ops s)) user_id = Some loan
       /\ loans_of user_id (run ops s) = [loan].
Proof.
  intros Hr. split.
  - rewrite (loans_of_keyed _ _ (Reachable_loans_keyed _ Hr)).
    destruct (Dict.get (loans_db s) user_id); simpl; lia.
  - intros loan Hl ops.
    pose proof (run_keeps_loan ops s user_id loan Hl) as Hl'.
    split; [exact Hl'|].
    rewrite (loans_of_keyed _ _ (Reachable_loans_keyed _ (Reachable_run ops s Hr))).
    now rewrite Hl'.
Qed.

Lemma loans_are_never_touched_witness :
  let s := run [CreateUser (User.mk 1 "Alice" 0%float); TakeLoan 1 50%float]
             empty_store in
  (List.length (loans_of 1 s) <= 1)%nat
  /\ forall loan, Dict.get (loans_db s) 1 = Some loan ->
     forall ops,
       Dict.get (loans_db (run ops s)) 1 = Some loan
       /\ loans_of 1 (run ops s) = [loan].
Proof.
  apply (loans_are_never_touched
           (run [CreateUser (User.mk 1 "Alice" 0%float); TakeLoan 1 50%float]
              empty_store) 1).
  apply Reachable_run. constructor.
Defined.

(** ** Where a stored user comes from *)

Lemma perform_transaction_user_origin user_id transaction s k user :
  Dict.get (users_db (snd (perform_transaction user_id transaction s))) k
    = Some user ->
  exists user0,
    Dict.get (users_db s) k = Some user0
    /\ User.id user0 = User.id user /\ User.name user0 = User.name user.
Proof.
  destruct (Z.eq_dec k user_id) as [->|Hk].
  - rewrite perform_transaction_eq.
    destruct (Dict.get (users_db s) user_id) as [user0|] eqn:Hu;
      [|simpl; congruence].
    destruct (Transaction.amount transaction <=? 0)%float;
      [simpl; rewrite Hu; intros [= ->]; eauto|].
    destruct (Transaction.type transaction); simpl.
    + destruct (User.balance user0 <? Transaction.amount transaction)%float; simpl.
      * rewrite Hu; intros [= ->]; eauto.
      * rewrite DictFacts.get_set_same. intros [= <-]. eauto.
    + rewrite DictFacts.get_set_same. intros [= <-]. eauto.
  - rewrite perform_transaction_users by exact Hk. eauto.
Qed.

Lemma take_loan_user_origin user_id loan_amount s k user :
  Dict.get (users_db (snd (take_loan user_id loan_amount s))) k = Some user ->
  exists user0,
    Dict.get (users_db s) k = Some user0
    /\ User.id user0 = User.id user /\ User.name user0 = User.name user.
Proof.
  rewrite take_loan_eq.
  destruct (Dict.get (users_db s) user_id) as [owner|]; [|simpl; eauto].
  destruct (Dict.get (loans_db s) user_id) as [loan|]; [simpl; eauto|].
  pose proof (perform_transaction_user_origin user_id
                (Transaction.mk CREDIT loan_amount) s k user) as Hp.
  destruct (perform_transaction user_id (Transaction.mk CREDIT loan_amount) s)
    as [[updated|e] s1]; exact Hp.
Qed.

(** A user found after a call was there before, with that id and name,
    or is the user the call created from its input. *)
Lemma exec_user_origin op s k user :
  Dict.get (users_db (exec op s)) k = Some user ->
  (exists user0,
     Dict.get (users_db s) k = Some user0
     /\ User.id user0 = User.id user /\ User.name user0 = User.name user)
  \/
  (exists user_input,
     op = CreateUser user_input /\ k = User.id user_input
     /\ user = User.mk (User.id user_input) (User.name user_input) 0%float).
Proof.
  destruct op; unfold exec.
  - rewrite create_user_eq.
    destruct (Dict.contains (users_db s) (User.id user_input)); simpl;
      [left; eauto|].
    destruct (Z.eq_dec k (User.id user_input)) as [->|Hk].
    + rewrite DictFacts.get_set_same. intros [= <-]. right. eauto.
    + rewrite DictFacts.get_set_other by exact Hk. left; eauto.
  - intros H. left. eapply perform_transaction_user_origin; eauto.
  - intros H. left. eapply take_loan_user_origin; eauto.
  - rewrite (proj1 (proj2 (read_only_calls s))). left; eauto.
  - rewrite (proj1 (read_only_calls s)). left; eauto.
  - rewrite (proj1 (proj2 (proj2 (read_only_calls s)))). left; eauto.
  - rewrite (proj2 (proj2 (proj2 (read_only_calls s)))). left; eauto.
Qed.

(** [create_user] takes an identifier that is not positive and an empty
    name: C8 fails on the store it leaves. *)
Lemma create_user_checks_neither_id_nor_name :
  let s := exec (CreateUser (User.mk 0 "" 7%float)) empty_store in
  Reachable s
  /\ Dict.get (users_db s) 0 = Some (User.mk 0 "" 0%float)
  /\ ~ (forall k user, Dict.get (users_db s) k = Some user ->
          1 <= User.id user /\ User.name user <> "").
Proof.
  split; [repeat constructor|]. split; [reflexivity|].
  intros H. destruct (H 0 (User.mk 0 "" 0%float) eq_refl) as [Hid _].
  simpl in Hid. lia.
Qed.

(** C8, amended. A user stored after any calls of the endpoints is filed
    under its own identifier and has the identifier and the name that
    some call of [create_user] among them was given; the name is stored
    as given, whatever it is. *)
Theorem stored_users_are_as_created (ops : list Op) (k : Z) (user : User) :
  Dict.get (users_db (run ops empty_store)) k = Some user ->
  User.id user = k
  /\ exists user_input,
       In (CreateUser user_input) ops
       /\ User.id user_input = User.id user
       /\ User.name user_input = User.name user.
Proof.
  revert k user. induction ops as [|op ops IH] using rev_ind; intros k user.
  - discriminate.
  - rewrite run_snoc. intros H.
    apply exec_user_origin in H as [(user0 & H0 & Hid & Hname)|(ui & -> & -> & ->)].
    + destruct (IH _ _ H0) as [Hk (ui & Hin & Hi & Hn)].
      split; [congruence|].
      exists ui. rewrite in_app_iff. repeat split; [now left | congruence..].
    + split; [reflexivity|].
      exists ui. rewrite in_app_iff. simpl. repeat split. right; now left.
Qed.

Lemma stored_users_are_as_created_witness :
  User.id (User.mk 0 "" 0%float) = 0
  /\ exists user_input,
       In (CreateUser user_input) [CreateUser (User.mk 0 "" 7%float)]
       /\ User.id user_input = User.id (User.mk 0 "" 0%float)
       /\ User.name user_input = User.name (User.mk 0 "" 0%float).
Proof.
  exact (stored_users_are_as_created [CreateUser (User.mk 0 "" 7%float)] 0
           (User.mk 0 "" 0%float) eq_refl).
Defined.

(** ** The two loan flows of Reference.py *)


(** What the looped-back [take_loan] does, branch by branch. *)
Lemma loopback_take_loan_eq transport user_id loan_amount s :
  Reference.Loopback.take_loan transport user_id loan_amount s =
  match Dict.get (users_db s) user_id, Dict.get (loans_db s) user_id with
  | None, _ => (Raise (NotFound user_id), s)
  | Some _, Some _ => (Raise (AlreadyHasLoan user_id), s)
  | Some user, None =>
      if negb (Reference.encodes transport loan_amount) then
        (Raise (Exception (Reference.out_of_range transport loan_amount)), s)
      else if user_id <? 1 then
        (Raise (CreditFailed 422 (Reference.validation_detail transport user_id)), s)
      else if (loan_amount <=? 0)%float then
        (Raise (CreditFailed 400 "Transaction amount must be positive."), s)
      else
        let credited := (User.balance user + loan_amount)%float in
        let users :=
          Dict.set (users_db s) user_id (User.with_balance user credited) in
        if Reference.renders transport credited then
          (Return (Loan.mk user_id loan_amount),
           mkStore users
             (Dict.set (loans_db s) user_id (Loan.mk user_id loan_amount)))
        else
          (Raise (Exception (Reference.out_of_range transport credited)),
           mkStore users (loans_db s))
  end.
Proof.
  unfold Reference.Loopback.take_loan, Reference.Loopback.client_post_transaction,
    find_user_by_id, find_loan_by_user_id, read_users_db, read_loans_db,
    loans_db_setitem, try_except, bind, ret, raise.
  cbv beta iota zeta.
  destruct (Dict.get (users_db s) user_id) as [user|] eqn:Hu; [|reflexivity].
  destruct (Dict.get (loans_db s) user_id) as [loan|]; [reflexivity|].
  cbv beta iota zeta. cbn [Transaction.amount].
  destruct (Reference.encodes transport loan_amount); [|reflexivity].
  cbn [negb]. destruct (user_id <? 1); [reflexivity|].
  cbv beta iota zeta. rewrite perform_transaction_eq, Hu.
  cbn [Transaction.amount Transaction.type].
  destruct (loan_amount <=? 0)%float; [reflexivity|].
  cbv beta iota zeta. cbn [User.balance User.with_balance].
  now destruct (Reference.renders transport (User.balance user + loan_amount)).
Qed.




(** ** Signs of binary64 sums and differences

    [+] and [-] on [float] are specified by [SFadd] and [SFsub] on
    [spec_float]; what follows reads the sign of their results off that
    specification. *)

Module Binary64.

(** [0 <= x] holds of the zeros, of [+inf] and of the finite numbers
    with a clear sign bit, and of nothing else (not of NaN). *)
Lemma non_negative_cases x :
  SF_non_negative x = true <->
  (exists s, x = S754_zero s) \/ x = S754_infinity false
  \/ exists m e, x = S754_finite false m e.
Proof.
  unfold SF_non_negative, SFleb. split.
  - destruct x as [s|[|]| |[|] m e]; simpl; try discriminate; eauto.
  - intros [[s ->]|[->|(m & e & ->)]]; reflexivity.
Qed.

Lemma iter_pos_inv {A} (P : A -> Prop) (f : A -> A) :
  (forall x, P x -> P (f x)) -> forall n x, P x -> P (iter_pos f n x).
Proof.
  intros Hf. induction n as [n IH|n IH|]; simpl; auto.
Qed.

(** Shifting a mantissa right and rounding it keep it at or above 0. *)
Lemma shr_1_nonneg mrs : 0 <= shr_m mrs -> 0 <= shr_m (shr_1 mrs).
Proof.
  destruct mrs as [m r s]. simpl.
  destruct m as [|[p|p|]|p]; simpl; lia.
Qed.

Lemma shr_nonneg mrs e n : 0 <= shr_m mrs -> 0 <= shr_m (fst (shr mrs e n)).
Proof.
  intros H. destruct n; simpl; auto.
  now apply (iter_pos_inv (fun mrs => 0 <= shr_m mrs)); [apply shr_1_nonneg|].
Qed.

Lemma shr_fexp_nonneg m e l :
  0 <= m -> 0 <= shr_m (fst (shr_fexp prec emax m e l)).
Proof.
  intros H. unfold shr_fexp. apply shr_nonneg.
  now destruct l as [|[| |]].
Qed.

Lemma round_nearest_even_nonneg m l : 0 <= m -> 0 <= round_nearest_even m l.
Proof.
  intros H. destruct l as [|[| |]]; simpl; try lia.
  destruct (Z.even m); lia.
Qed.

(** Rounding with a clear sign bit gives a zero, a finite number with a
    clear sign bit or [+inf]. *)
Lemma binary_round_aux_nonneg mx ex lx :
  0 <= mx -> SF_non_negative (binary_round_aux prec emax false mx ex lx) = true.
Proof.
  intros H. unfold binary_round_aux.
  pose proof (shr_fexp_nonneg mx ex lx H) as H1.
  destruct (shr_fexp prec emax mx ex lx) as [mrs' e']. simpl in H1.
  pose proof (shr_fexp_nonneg _ e' loc_Exact
                (round_nearest_even_nonneg _ (loc_of_shr_record mrs') H1)) as H2.
  destruct (shr_fexp prec emax _ e' loc_Exact) as [mrs'' e'']. simpl in H2.
  destruct (shr_m mrs'') as [|m|m]; [reflexivity| |lia].
  now destruct (e'' <=? emax - prec).
Qed.

Lemma binary_normalize_nonneg m e :
  0 <= m -> SF_non_negative (binary_normalize prec emax m e false) = true.
Proof.
  intros H. destruct m as [|m|m]; [reflexivity| |lia].
  unfold binary_normalize, binary_round.
  destruct (shl_align _ _ _) as [mz ez]. now apply binary_round_aux_nonneg.
Qed.

(** Aligning a mantissa to a smaller exponent multiplies it by the
    power of two in between. *)
Lemma iter_xO m d : Zpos (Pos.iter xO m d) = Zpos m * 2 ^ Zpos d.
Proof.
  induction d as [|d IH] using Pos.peano_ind.
  - simpl. lia.
  - rewrite Pos.iter_succ, Pos2Z.inj_succ, Z.pow_succ_r by lia.
    rewrite Pos2Z.inj_xO, IH. lia.
Qed.

Lemma shl_align_value m e e' :
  e' <= e -> Zpos (fst (shl_align m e e')) = Zpos m * 2 ^ (e - e').
Proof.
  intros H. unfold shl_align.
  destruct (e' - e) as [|d|d] eqn:E; cbn [fst]; [|lia|].
  - replace (e - e') with 0 by lia. rewrite Z.pow_0_r. lia.
  - rewrite iter_xO. do 2 f_equal. rewrite <- Pos2Z.opp_pos in E. lia.
Qed.

(** A mantissa of [n] binary digits lies in [[2^(n-1), 2^n)]. *)
Lemma digits2_bounds m :
  2 ^ (Zpos (digits2_pos m) - 1) <= Zpos m < 2 ^ Zpos (digits2_pos m).
Proof.
  induction m as [m IH|m IH|]; simpl digits2_pos.
  - rewrite Pos2Z.inj_succ.
    replace (Z.succ (Zpos (digits2_pos m)) - 1) with (Z.succ (Zpos (digits2_pos m) - 1)) by lia.
    rewrite !Z.pow_succ_r by lia. lia.
  - rewrite Pos2Z.inj_succ.
    replace (Z.succ (Zpos (digits2_pos m)) - 1) with (Z.succ (Zpos (digits2_pos m) - 1)) by lia.
    rewrite !Z.pow_succ_r by lia. lia.
  - simpl. lia.
Qed.

(** A valid finite number has at most [prec] digits, and exactly [prec]
    above the smallest exponent. *)
Lemma bounded_digits m e :
  bounded prec emax m e = true ->
  SpecFloat.emin prec emax <= e
  /\ Zpos (digits2_pos m) <= prec
  /\ (SpecFloat.emin prec emax < e -> Zpos (digits2_pos m) = prec).
Proof.
  unfold bounded, canonical_mantissa, fexp. intros H.
  apply andb_prop in H as [H _]. apply Z.eqb_eq in H. lia.
Qed.

(** Among valid non-negative finite numbers, not [a < b] puts the
    aligned mantissa of [a] at or above that of [b]. *)
Lemma aligned_mantissas ma ea mb eb :
  bounded prec emax ma ea = true ->
  bounded prec emax mb eb = true ->
  SFltb (S754_finite false ma ea) (S754_finite false mb eb) = false ->
  0 <= Zpos (fst (shl_align ma ea (Z.min ea eb)))
       - Zpos (fst (shl_align mb eb (Z.min ea eb))).
Proof.
  intros Ha Hb Hlt. unfold SFltb, SFcompare in Hlt.
  destruct (Z.compare_spec ea eb) as [->|Hlt'|Hgt]; [|discriminate|].
  - rewrite Z.min_id, !shl_align_value, Z.sub_diag, Z.pow_0_r by lia.
    rewrite Pos.compare_cont_spec in Hlt. simpl in Hlt.
    destruct (Pos.compare_spec ma mb); try discriminate; lia.
  - rewrite Z.min_r, !shl_align_value, Z.sub_diag, Z.pow_0_r by lia.
    apply bounded_digits in Ha as (_ & _ & Hda), Hb as (Hmin & Hdb & _).
    specialize (Hda ltac:(lia)).
    pose proof (digits2_bounds ma) as Hma. pose proof (digits2_bounds mb) as Hmb.
    rewrite Hda in Hma.
    assert (2 ^ Zpos (digits2_pos mb) <= 2 ^ prec)
      by (apply Z.pow_le_mono_r; lia).
    assert (2 ^ 1 <= 2 ^ (ea - eb)) by (apply Z.pow_le_mono_r; lia).
    assert (Hp : 2 ^ prec = 2 ^ (prec - 1) * 2 ^ 1)
      by (rewrite <- Z.pow_add_r by (unfold prec; lia); f_equal; lia).
    nia.
Qed.

(** [x + y] for [0 <= x] and a positive finite [y]. *)
Lemma add_non_negative x y :
  SF_non_negative x = true -> (exists m e, y = S754_finite false m e) ->
  SF_non_negative (SF64add x y) = true.
Proof.
  intros Hx (my & ey & ->).
  apply non_negative_cases in Hx as [[s ->]|[->|(mx & ex & ->)]]; try reflexivity.
  unfold SF64add, SFadd. apply binary_normalize_nonneg. simpl. lia.
Qed.

(** [x - y] for [0 <= x], a positive finite [y] and not [x < y]. *)
Lemma sub_non_negative x y :
  valid_binary x = true -> valid_binary y = true ->
  SF_non_negative x = true -> (exists m e, y = S754_finite false m e) ->
  SFltb x y = false ->
  SF_non_negative (SF64sub x y) = true.
Proof.
  intros Vx Vy Hx (my & ey & ->) Hlt.
  apply non_negative_cases in Hx as [[s ->]|[->|(mx & ex & ->)]];
    [discriminate | reflexivity |].
  unfold SF64sub, SFsub. apply binary_normalize_nonneg. simpl cond_Zopp.
  now apply aligned_mantissas.
Qed.

End Binary64.

(** A finite amount that passed [amount <= 0] is a positive finite
    number. *)
Lemma finite_positive_SF (b : float) :
  is_finite b = true -> (b <=? 0)%float = false ->
  exists m e, Prim2SF b = S754_finite false m e.
Proof.
  unfold is_finite, is_nan, is_infinity.
  rewrite leb_spec, !eqb_spec, abs_spec.
  change (Prim2SF 0) with (S754_zero false).
  change (Prim2SF infinity) with (S754_infinity false).
  destruct (Prim2SF b) as [s|s| |[|] m e]; simpl; try discriminate; eauto.
  - destruct s; discriminate.
Qed.

Lemma non_negative_SF (a : float) :
  non_negative a = SF_non_negative (Prim2SF a).
Proof. unfold non_negative. now rewrite leb_spec. Qed.

(** Crediting a finite amount that passed [amount <= 0] keeps
    [balance >= 0]. *)
Lemma credit_keeps_non_negative (balance amount : float) :
  non_negative balance = true ->
  is_finite amount = true -> (amount <=? 0)%float = false ->
  non_negative (balance + amount) = true.
Proof.
  rewrite !non_negative_SF, add_spec. intros Hb Hf Ha.
  apply Binary64.add_non_negative; [exact Hb | now apply finite_positive_SF].
Qed.

(** So does debiting it, once [balance < amount] has been ruled out. *)
Lemma debit_keeps_non_negative (balance amount : float) :
  non_negative balance = true ->
  is_finite amount = true -> (amount <=? 0)%float = false ->
  (balance <? amount)%float = false ->
  non_negative (balance - amount) = true.
Proof.
  rewrite !non_negative_SF, sub_spec, ltb_spec. intros Hb Hf Ha Hlt.
  apply Binary64.sub_non_negative; auto using Prim2SF_valid, finite_positive_SF.
Qed.

(** ** Balances *)

Lemma forallb_values_set {V} (P : V -> bool) (d : Dict.t V) k v :
  forallb P (Dict.values d) = true -> P v = true ->
  forallb P (Dict.values (Dict.set d k v)) = true.
Proof.
  intros Hd Hv. induction d as [|[k' v'] d IH]; simpl in *.
  - now rewrite Hv.
  - apply andb_prop in Hd as [H1 H2].
    destruct (k =? k'); simpl; [now rewrite Hv | now rewrite H1, IH].
Qed.

Lemma forallb_values_get {V} (P : V -> bool) (d : Dict.t V) k v :
  forallb P (Dict.values d) = true -> Dict.get d k = Some v -> P v = true.
Proof.
  induction d as [|[k' v'] d IH]; simpl; [discriminate|].
  intros Hd Hg. apply andb_prop in Hd as [H1 H2].
  destruct (k =? k'); [now injection Hg as <- | auto].
Qed.

Lemma perform_transaction_non_negative user_id transaction s :
  is_finite (Transaction.amount transaction) = true ->
  balances_non_negative s = true ->
  balances_non_negative (snd (perform_transaction user_id transaction s)) = true.
Proof.
  intros Hf Hs. rewrite perform_transaction_eq.
  destruct (Dict.get (users_db s) user_id) as [user|] eqn:Hu; [|exact Hs].
  pose proof (forallb_values_get _ _ _ _ Hs Hu) as Hb. simpl in Hb.
  destruct (Transaction.amount transaction <=? 0)%float eqn:Ha; [exact Hs|].
  destruct (Transaction.type transaction); simpl.
  - destruct (User.balance user <? Transaction.amount transaction)%float eqn:Hlt;
      [exact Hs|].
    apply forallb_values_set; [exact Hs|].
    now apply debit_keeps_non_negative.
  - apply forallb_values_set; [exact Hs|].
    now apply credit_keeps_non_negative.
Qed.

Lemma exec_non_negative op s :
  finite_amount op = true ->
  balances_non_negative s = true ->
  balances_non_negative (exec op s) = true.
Proof.
  destruct op; unfold exec, finite_amount; simpl amount_of; intros Hf Hs.
  - rewrite create_user_eq.
    destruct (Dict.contains (users_db s) (User.id user_input)); [exact Hs|].
    now apply forallb_values_set.
  - now apply perform_transaction_non_negative.
  - rewrite take_loan_eq.
    destruct (Dict.get (users_db s) user_id) as [user|]; [|exact Hs].
    destruct (Dict.get (loans_db s) user_id) as [loan|]; [exact Hs|].
    pose proof (perform_transaction_non_negative user_id
                  (Transaction.mk CREDIT loan_amount) s Hf Hs) as Hp.
    now destruct (perform_transaction user_id (Transaction.mk CREDIT loan_amount) s)
      as [[updated|e] s1].
  - now rewrite (proj1 (proj2 (read_only_calls s))).
  - now rewrite (proj1 (read_only_calls s)).
  - now rewrite (proj1 (proj2 (proj2 (read_only_calls s)))).
  - now rewrite (proj2 (proj2 (proj2 (read_only_calls s)))).
Qed.

(** X1. As long as every amount received is a finite number, every
    stored balance satisfies [balance >= 0]. *)
Theorem finite_amounts_keep_balances_non_negative (ops : list Op) :
  forallb finite_amount ops = true ->
  balances_non_negative (run ops empty_store) = true.
Proof.
  assert (H : forall s, balances_non_negative s = true ->
                        forallb finite_amount ops = true ->
                        balances_non_negative (run ops s) = true).
  { induction ops as [|op ops IH]; intros s Hs Hf; simpl in *; [exact Hs|].
    apply andb_prop in Hf as [Hop Hops].
    apply IH; [now apply exec_non_negative | exact Hops]. }
  now apply H.
Qed.

(** C2, on the failing input. A credit of [inf] passes [amount <= 0], a
    debit of [inf] then passes [balance < amount], and the balance that
    is stored is [inf - inf], NaN, for which [balance >= 0] is false; a
    credit of NaN, which passes [amount <= 0] too, stores NaN in one
    step.  Once the balance is NaN no debit is refused. *)
Theorem balance_is_not_always_non_negative :
  let alice := User.mk 1 "Alice" 0%float in
  let s_inf :=
    run [CreateUser alice;
         PerformTransaction 1 (Transaction.mk CREDIT infinity);
         PerformTransaction 1 (Transaction.mk DEBIT infinity)] empty_store in
  let s_nan :=
    run [CreateUser alice; PerformTransaction 1 (Transaction.mk CREDIT nan)]
      empty_store in
  Dict.get (users_db s_inf) 1 = Some (User.mk 1 "Alice" nan)
  /\ Dict.get (users_db s_nan) 1 = Some (User.mk 1 "Alice" nan)
  /\ non_negative nan = false
  /\ balances_non_negative s_inf = false
  /\ balances_non_negative s_nan = false
  /\ Reachable s_inf /\ Reachable s_nan
  /\ fst (perform_transaction 1 (Transaction.mk DEBIT 1000%float) s_inf)
     = Return (User.mk 1 "Alice" nan).
Proof.
  repeat split; try reflexivity; apply Reachable_run; constructor.
Qed.

Lemma finite_amounts_keep_balances_non_negative_witness :
  balances_non_negative
    (run [CreateUser (User.mk 1 "Alice" 0%float);
          PerformTransaction 1 (Transaction.mk CREDIT 100%float);
          PerformTransaction 1 (Transaction.mk DEBIT 30%float);
          TakeLoan 1 50%float] empty_store) = true.
Proof.
  exact (finite_amounts_keep_balances_non_negative
           [CreateUser (User.mk 1 "Alice" 0%float);
            PerformTransaction 1 (Transaction.mk CREDIT 100%float);
            PerformTransaction 1 (Transaction.mk DEBIT 30%float);
            TakeLoan 1 50%float] eq_refl).
Defined.

(** * Further properties of the endpoints *)

(** ** More on the dictionary *)

Module DictOrder.
Section DictOrder.
Context {V : Type}.
Implicit Types (d : Dict.t V) (k : Z) (v : V).

(** Assigning to a new key appends the item. *)
Lemma set_absent d k v :
  Dict.get d k = None -> Dict.set d k v = (d ++ [(k, v)])%list.
Proof.
  induction d as [|[k' v'] d IH]; simpl; [reflexivity|].
  destruct (k =? k'); [discriminate|]. intros H. now rewrite IH.
Qed.

(** Assigning to a present key a value that [f] does not tell from the
    old one leaves the values as [f] shows them, in their order. *)
Lemma map_values_set_present {B} (f : V -> B) d k v v0 :
  Dict.get d k = Some v0 -> f v = f v0 ->
  map f (Dict.values (Dict.set d k v)) = map f (Dict.values d).
Proof.
  intros Hg Hf. induction d as [|[k' v'] d IH]; simpl in *; [discriminate|].
  destruct (k =? k'); simpl.
  - injection Hg as ->. now rewrite Hf.
  - now rewrite IH.
Qed.

Lemma In_get d k v : NoDup (Dict.keys d) -> In (k, v) d -> Dict.get d k = Some v.
Proof.
  induction d as [|[k' v'] d IH]; simpl; [tauto|].
  intros Hnd Hin.
  assert (Hnd' : NoDup (Dict.keys d)) by now inversion Hnd.
  assert (Hnotin : ~ In k' (Dict.keys d)) by now inversion Hnd.
  destruct Hin as [[= -> ->]|Hin]; [now rewrite Z.eqb_refl|].
  destruct (k =? k') eqn:E; [|auto].
  apply Z.eqb_eq in E; subst k'. exfalso. apply Hnotin.
  apply (in_map fst) in Hin. exact Hin.
Qed.

Lemma In_values d v : In v (Dict.values d) <-> exists k, In (k, v) d.
Proof.
  unfold Dict.values. rewrite in_map_iff. split.
  - intros [[k v'] [<- Hin]]. now exists k.
  - intros [k Hin]. now exists (k, v).
Qed.

(** When each value names the key it is filed under, the values name
    the keys, in order. *)
Lemma map_key_values (key : V -> Z) d :
  (forall k v, In (k, v) d -> key v = k) ->
  map key (Dict.values d) = Dict.keys d.
Proof.
  intros Hkey. induction d as [|[k v] d IH]; simpl; [reflexivity|].
  rewrite (Hkey k v) by now left.
  f_equal. apply IH. intros k' v' H. apply Hkey. now right.
Qed.
End DictOrder.
End DictOrder.

(** ** What a call does to the two dictionaries *)

(** [users_db] after a call: as before, or with a new user of balance
    [0.0] appended under a key that was free, or with the balance of a
    stored user replaced. *)
Lemma perform_transaction_users_shape user_id transaction s :
  users_db (snd (perform_transaction user_id transaction s)) = users_db s
  \/ exists user0 b,
       Dict.get (users_db s) user_id = Some user0
       /\ users_db (snd (perform_transaction user_id transaction s))
          = Dict.set (users_db s) user_id (User.with_balance user0 b).
Proof.
  rewrite perform_transaction_eq.
  destruct (Dict.get (users_db s) user_id) as [user0|]; [|now left].
  destruct (Transaction.amount transaction <=? 0)%float; [now left|].
  destruct (Transaction.type transaction); simpl.
  - destruct (User.balance user0 <? Transaction.amount transaction)%float;
      simpl; [now left | right; eauto].
  - right; eauto.
Qed.

Lemma take_loan_users_shape user_id loan_amount s :
  users_db (snd (take_loan user_id loan_amount s)) = users_db s
  \/ exists user0 b,
       Dict.get (users_db s) user_id = Some user0
       /\ users_db (snd (take_loan user_id loan_amount s))
          = Dict.set (users_db s) user_id (User.with_balance user0 b).
Proof.
  rewrite take_loan_eq.
  pose proof (perform_transaction_users_shape user_id
                (Transaction.mk CREDIT loan_amount) s) as Hp.
  destruct (Dict.get (users_db s) user_id) as [owner|]; [|now left].
  destruct (Dict.get (loans_db s) user_id) as [loan|]; [now left|].
  destruct (perform_transaction user_id (Transaction.mk CREDIT loan_amount) s)
    as [[updated|e] s1]; exact Hp.
Qed.

Lemma exec_users_shape op s :
  users_db (exec op s) = users_db s
  \/ (exists user_input,
        Dict.get (users_db s) (User.id user_input) = None
        /\ users_db (exec op s)
           = Dict.set (users_db s) (User.id user_input)
               (User.mk (User.id user_input) (User.name user_input) 0%float))
  \/ (exists k user0 b,
        Dict.get (users_db s) k = Some user0
        /\ users_db (exec op s) = Dict.set (users_db s) k (User.with_balance user0 b)).
Proof.
  destruct op; unfold exec.
  - rewrite create_user_eq. unfold Dict.contains.
    destruct (Dict.get (users_db s) (User.id user_input)) eqn:Hg; simpl;
      [now left | right; left; eauto].
  - destruct (perform_transaction_users_shape user_id transaction s)
      as [H|(u0 & b & H1 & H2)]; [now left | right; right; eauto].
  - destruct (take_loan_users_shape user_id loan_amount s)
      as [H|(u0 & b & H1 & H2)]; [now left | right; right; eauto].
  - left. now rewrite (proj1 (proj2 (read_only_calls s))).
  - left. now rewrite (proj1 (read_only_calls s)).
  - left. now rewrite (proj1 (proj2 (proj2 (read_only_calls s)))).
  - left. now rewrite (proj2 (proj2 (proj2 (read_only_calls s)))).
Qed.

(** [loans_db] after a call: as before, or with the loan of a stored
    user who had none appended, its amount having failed the test
    [amount <= 0]. *)
Lemma take_loan_loans_shape user_id loan_amount s :
  loans_db (snd (take_loan user_id loan_amount s)) = loans_db s
  \/ (Dict.get (loans_db s) user_id = None
      /\ (exists user, Dict.get (users_db s) user_id = Some user)
      /\ (loan_amount <=? 0)%float = false
      /\ loans_db (snd (take_loan user_id loan_amount s))
         = Dict.set (loans_db s) user_id (Loan.mk user_id loan_amount)).
Proof.
  rewrite take_loan_eq, perform_transaction_eq.
  destruct (Dict.get (users_db s) user_id) as [owner|] eqn:Hu; [|now left].
  destruct (Dict.get (loans_db s) user_id) as [loan|] eqn:Hl; [now left|].
  simpl. destruct (loan_amount <=? 0)%float; simpl; [now left|].
  right. repeat split; eauto.
Qed.

Lemma exec_loans_shape op s :
  loans_db (exec op s) = loans_db s
  \/ exists user_id loan_amount,
       Dict.get (loans_db s) user_id = None
       /\ (exists user, Dict.get (users_db s) user_id = Some user)
       /\ (loan_amount <=? 0)%float = false
       /\ loans_db (exec op s)
          = Dict.set (loans_db s) user_id (Loan.mk user_id loan_amount).
Proof.
  destruct op; unfold exec.
  - left. rewrite create_user_eq.
    now destruct (Dict.contains (users_db s) (User.id user_input)).
  - left. apply perform_transaction_loans.
  - destruct (take_loan_loans_shape user_id loan_amount s) as [H|H];
      [now left | right; eauto].
  - left. now rewrite (proj1 (proj2 (read_only_calls s))).
  - left. now rewrite (proj1 (read_only_calls s)).
  - left. now rewrite (proj1 (proj2 (proj2 (read_only_calls s)))).
  - left. now rewrite (proj2 (proj2 (proj2 (read_only_calls s)))).
Qed.

(** ** What every reachable store satisfies *)

Lemma exec_users_keyed op s : users_keyed s -> users_keyed (exec op s).
Proof.
  intros [Hnd Hid]. unfold users_keyed.
  destruct (exec_users_shape op s)
    as [->|[(ui & Hfree & ->)|(k & user0 & b & Hget & ->)]]; [now split| |].
  - split; [now apply DictFacts.keys_set_NoDup|].
    intros k' user Hin.
    apply DictFacts.In_set in Hin as [[-> ->]|Hin]; [reflexivity | auto].
  - split; [now apply DictFacts.keys_set_NoDup|].
    intros k' user Hin.
    apply DictFacts.In_set in Hin as [[-> ->]|Hin]; [|auto].
    simpl. apply Hid. now apply DictFacts.get_In.
Qed.

Lemma Reachable_users_keyed s : Reachable s -> users_keyed s.
Proof.
  induction 1 as [|op s _ IH].
  - split; [constructor | intros k user []].
  - now apply exec_users_keyed.
Qed.

(** A stored user is still stored after a call, with its identifier and
    its name. *)
Lemma exec_keeps_user op s k user :
  Dict.get (users_db s) k = Some user ->
  exists user',
    Dict.get (users_db (exec op s)) k = Some user'
    /\ identity user' = identity user.
Proof.
  intros Hget.
  destruct (exec_users_shape op s)
    as [->|[(ui & Hfree & ->)|(k0 & user0 & b & Hget0 & ->)]]; [eauto| |].
  - rewrite DictFacts.get_set_other by congruence. eauto.
  - destruct (Z.eq_dec k k0) as [->|Hk].
    + rewrite DictFacts.get_set_same. rewrite Hget in Hget0.
      injection Hget0 as <-. eauto.
    + rewrite DictFacts.get_set_other by exact Hk. eauto.
Qed.

Lemma run_keeps_user ops s k user :
  Dict.get (users_db s) k = Some user ->
  exists user',
    Dict.get (users_db (run ops s)) k = Some user'
    /\ identity user' = identity user.
Proof.
  revert s user. induction ops as [|op ops IH]; intros s user H; simpl; [eauto|].
  destruct (exec_keeps_user op s k user H) as (user1 & H1 & E1).
  destruct (IH _ _ H1) as (user' & H' & E'). exists user'. split; congruence.
Qed.

Lemma exec_loans_have_users op s :
  loans_have_users s -> loans_have_users (exec op s).
Proof.
  intros Hs k loan Hget.
  assert (Hold : forall user, Dict.get (users_db s) k = Some user ->
                 exists user', Dict.get (users_db (exec op s)) k = Some user').
  { intros user Hu. destruct (exec_keeps_user op s k user Hu) as (u' & H' & _).
    eauto. }
  destruct (exec_loans_shape op s)
    as [E|(user_id & a & Hfree & (owner & Howner) & _ & E)]; rewrite E in Hget.
  - destruct (Hs k loan Hget) as [user Hu]. eauto.
  - destruct (Z.eq_dec k user_id) as [->|Hk]; [eauto|].
    rewrite DictFacts.get_set_other in Hget by exact Hk.
    destruct (Hs k loan Hget) as [user Hu]. eauto.
Qed.

Lemma Reachable_loans_have_users s : Reachable s -> loans_have_users s.
Proof.
  induction 1 as [|op s _ IH]; [intros k loan [=] | now apply exec_loans_have_users].
Qed.

Lemma Reachable_loans_amounts_checked s : Reachable s -> loans_amounts_checked s.
Proof.
  induction 1 as [|op s _ IH]; [intros k loan []|].
  intros k loan Hin.
  destruct (exec_loans_shape op s)
    as [E|(user_id & a & _ & _ & Ha & E)]; rewrite E in Hin; [eauto|].
  apply DictFacts.In_set in Hin as [[-> ->]|Hin]; [exact Ha | eauto].
Qed.

(** ** One loan per user, for good *)

(** A loan need not raise the balance by its amount: at a balance of
    [1e16] a loan of [1.0] is granted and recorded and leaves the balance
    as it was.  C4 fails there. *)
Lemma loan_can_leave_the_balance :
  let s := run [CreateUser (User.mk 1 "Alice" 0%float);
                PerformTransaction 1 (Transaction.mk CREDIT 1e16%float)]
             empty_store in
  Dict.get (users_db s) 1 = Some (User.mk 1 "Alice" 1e16%float)
  /\ Dict.get (loans_db s) 1 = None
  /\ (0 <? 1)%float = true
  /\ fst (take_loan 1 1%float s) = Return (Loan.mk 1 1%float)
  /\ Dict.get (users_db (snd (take_loan 1 1%float s))) 1
     = Some (User.mk 1 "Alice" 1e16%float)
  /\ (1e16 + 1 - 1e16 =? 1)%float = false.
Proof. repeat split. Qed.

(** C4, amended. For a stored user without a loan and an amount [> 0],
    [take_loan] returns the loan [{user_id, amount}], having stored it
    under [user_id] and having replaced the user's balance by the
    binary64 sum [balance + amount], which need not exceed the old
    balance by [amount]; from then on, after any further calls of the
    endpoints, every [take_loan] for that user, with any amount, raises
    AlreadyHasLoan and leaves the store, so the balance, as it was. *)
Theorem take_loan_once
  (user_id : Z) (loan_amount second_amount : float) (user : User) (s : Store)
  (ops : list Op) :
  Dict.get (users_db s) user_id = Some user ->
  Dict.get (loans_db s) user_id = None ->
  (0 <? loan_amount)%float = true ->
  let new_loan := Loan.mk user_id loan_amount in
  let s1 := snd (take_loan user_id loan_amount s) in
  let s2 := run ops s1 in
  fst (take_loan user_id loan_amount s) = Return new_loan
  /\ Dict.get (users_db s1) user_id =
       Some (User.mk (User.id user) (User.name user)
               (User.balance user + loan_amount)%float)
  /\ Dict.get (loans_db s1) user_id = Some new_loan
  /\ take_loan user_id second_amount s2 = (Raise (AlreadyHasLoan user_id), s2).
Proof.
  intros Hu Hl Hpos new_loan s1 s2.
  assert (Hrun : take_loan user_id loan_amount s =
    (Return new_loan,
     mkStore
       (Dict.set (users_db s) user_id
          (User.with_balance user (User.balance user + loan_amount)%float))
       (Dict.set (loans_db s) user_id new_loan))).
  { rewrite take_loan_eq, Hu, Hl, perform_transaction_eq, Hu. simpl.
    now rewrite (positive_not_le_zero _ Hpos). }
  assert (Hu1 : Dict.get (users_db s1) user_id =
                Some (User.with_balance user (User.balance user + loan_amount)%float))
    by (subst s1; rewrite Hrun; simpl; apply DictFacts.get_set_same).
  assert (Hl1 : Dict.get (loans_db s1) user_id = Some new_loan)
    by (subst s1; rewrite Hrun; simpl; apply DictFacts.get_set_same).
  split; [now rewrite Hrun|]. split; [exact Hu1|]. split; [exact Hl1|].
  destruct (run_keeps_user ops s1 user_id _ Hu1) as (user2 & Hu2 & _).
  pose proof (run_keeps_loan ops s1 user_id new_loan Hl1) as Hl2.
  fold s2 in Hu2, Hl2. now rewrite take_loan_eq, Hu2, Hl2.
Qed.

Lemma take_loan_once_witness :
  let s := mkStore [(1, User.mk 1 "Alice" 70%float)] [] in
  let s1 := snd (take_loan 1 50%float s) in
  let s2 := run [PerformTransaction 1 (Transaction.mk DEBIT 120%float);
                 CreateUser (User.mk 2 "Bob" 0%float);
                 TakeLoan 2 5%float] s1 in
  fst (take_loan 1 50%float s) = Return (Loan.mk 1 50%float)
  /\ Dict.get (users_db s1) 1 = Some (User.mk 1 "Alice" (70 + 50)%float)
  /\ Dict.get (loans_db s1) 1 = Some (Loan.mk 1 50%float)
  /\ take_loan 1 10%float s2 = (Raise (AlreadyHasLoan 1), s2).
Proof.
  exact (take_loan_once 1 50%float 10%float (User.mk 1 "Alice" 70%float)
           (mkStore [(1, User.mk 1 "Alice" 70%float)] [])
           [PerformTransaction 1 (Transaction.mk DEBIT 120%float);
            CreateUser (User.mk 2 "Bob" 0%float);
            TakeLoan 2 5%float]
           eq_refl eq_refl eq_refl).
Defined.

(** A number that fails [amount <= 0] and is not NaN is [> 0]. *)
Lemma not_le_zero_positive (a : float) :
  (a <=? 0)%float = false -> is_nan a = false -> (0 <? a)%float = true.
Proof.
  unfold is_nan. rewrite ltb_spec, leb_spec, eqb_spec.
  change (Prim2SF 0) with (S754_zero false).
  unfold SFltb, SFleb, SFeqb.
  destruct (Prim2SF a) as [sa|sa| |sa m e]; simpl; try discriminate;
    destruct sa; simpl; congruence.
Qed.

(** ** Failures *)

(** X2. When an endpoint of main.py raises, what it raises is an
    [HTTPException] with status 400 or 404, and the store is the one the
    call started from.  In particular the 500 that [take_loan] keeps for
    an unexpected exception of [perform_transaction] is never raised. *)
Theorem calls_fail_with_400_or_404 (op : Op) (s : Store) (e : exn) :
  raised op s = Some e ->
  exec op s = s
  /\ exists detail, e = HTTPException 400 detail \/ e = HTTPException 404 detail.
Proof.
  destruct op; unfold raised, exec.
  - rewrite create_user_eq.
    destruct (Dict.contains (users_db s) (User.id user_input)); simpl;
      [|discriminate].
    intros [= <-]. unfold AlreadyExists. eauto.
  - rewrite perform_transaction_eq.
    unfold NotFound, InvalidAmount, InsufficientFunds.
    destruct (Dict.get (users_db s) user_id) as [user|];
      [|simpl; intros [= <-]; eauto].
    destruct (Transaction.amount transaction <=? 0)%float;
      [simpl; intros [= <-]; eauto|].
    destruct (Transaction.type transaction); [|discriminate].
    destruct (User.balance user <? Transaction.amount transaction)%float;
      [simpl; intros [= <-]; eauto | discriminate].
  - rewrite take_loan_eq, perform_transaction_eq.
    unfold NotFound, AlreadyHasLoan, InvalidAmount.
    destruct (Dict.get (users_db s) user_id) as [user|];
      [|simpl; intros [= <-]; eauto].
    destruct (Dict.get (loans_db s) user_id) as [loan|];
      [simpl; intros [= <-]; eauto|].
    simpl. destruct (loan_amount <=? 0)%float;
      [simpl; intros [= <-]; eauto | discriminate].
  - discriminate.
  - unfold get_user_balance_and_loan. rewrite balance_and_loan_via_eq.
    unfold NotFound.
    destruct (Dict.get (users_db s) user_id) as [user|];
      [discriminate | simpl; intros [= <-]; eauto].
  - discriminate.
  - discriminate.
Qed.

Lemma calls_fail_with_400_or_404_witness :
  let s := mkStore [(1, User.mk 1 "Alice" 70%float)] [] in
  exec (PerformTransaction 1 (Transaction.mk DEBIT 71%float)) s = s
  /\ exists detail,
       InsufficientFunds = HTTPException 400 detail
       \/ InsufficientFunds = HTTPException 404 detail.
Proof.
  exact (calls_fail_with_400_or_404
           (PerformTransaction 1 (Transaction.mk DEBIT 71%float))
           (mkStore [(1, User.mk 1 "Alice" 70%float)] [])
           InsufficientFunds eq_refl).
Defined.

(** ** Users stay *)

(** X3. No call removes a user or changes its identifier or its name: a
    user stored under a key is, after any further calls, still stored
    under that key with the same identifier and the same name. *)
Theorem users_are_never_removed (ops : list Op) (s : Store) (k : Z) (user : User) :
  Dict.get (users_db s) k = Some user ->
  exists user',
    Dict.get (users_db (run ops s)) k = Some user'
    /\ User.id user' = User.id user
    /\ User.name user' = User.name user.
Proof.
  intros H. destruct (run_keeps_user ops s k user H) as (user' & H' & E).
  exists user'. unfold identity in E. injection E as E1 E2. auto.
Qed.

Lemma users_are_never_removed_witness :
  exists user',
    Dict.get
      (users_db
         (run [PerformTransaction 1 (Transaction.mk CREDIT 100%float);
               CreateUser (User.mk 1 "Mallory" 0%float);
               TakeLoan 1 50%float]
            (mkStore [(1, User.mk 1 "Alice" 70%float)] []))) 1 = Some user'
    /\ User.id user' = User.id (User.mk 1 "Alice" 70%float)
    /\ User.name user' = User.name (User.mk 1 "Alice" 70%float).
Proof.
  exact (users_are_never_removed
           [PerformTransaction 1 (Transaction.mk CREDIT 100%float);
            CreateUser (User.mk 1 "Mallory" 0%float);
            TakeLoan 1 50%float]
           (mkStore [(1, User.mk 1 "Alice" 70%float)] []) 1
           (User.mk 1 "Alice" 70%float) eq_refl).
Defined.

(** ** The list endpoints *)

(** X4. In a reachable store [get_all_users] returns every stored user
    once: no two users of the list have the same identifier, and a user
    is in the list exactly when [find_user_by_id] finds that user under
    its identifier. *)
Theorem get_all_users_lists_each_user_once (s : Store) :
  Reachable s ->
  exists users,
    get_all_users s = (Return users, s)
    /\ NoDup (map User.id users)
    /\ forall user,
         In user users
         <-> find_user_by_id (User.id user) s = (Return (Some user), s).
Proof.
  intros Hr. destruct (Reachable_users_keyed s Hr) as [Hnd Hid].
  exists (Dict.values (users_db s)). split; [reflexivity|]. split.
  - exact (eq_ind_r (fun ids => NoDup ids) Hnd
             (DictOrder.map_key_values User.id _ Hid)).
  - intros user. unfold find_user_by_id, read_users_db, bind, ret. simpl.
    rewrite DictOrder.In_values. split.
    + intros [k Hin]. rewrite <- (Hid _ _ Hin) in Hin.
      now rewrite (DictOrder.In_get _ _ _ Hnd Hin).
    + intros [= H]. exists (User.id user). now apply DictFacts.get_In.
Qed.

Lemma get_all_users_lists_each_user_once_witness :
  let s := run [CreateUser (User.mk 2 "Bob" 0%float);
                CreateUser (User.mk 1 "Alice" 0%float);
                PerformTransaction 2 (Transaction.mk CREDIT 5%float)]
             empty_store in
  exists users,
    get_all_users s = (Return users, s)
    /\ NoDup (map User.id users)
    /\ forall user,
         In user users
         <-> find_user_by_id (User.id user) s = (Return (Some user), s).
Proof.
  apply (get_all_users_lists_each_user_once
           (run [CreateUser (User.mk 2 "Bob" 0%float);
                 CreateUser (User.mk 1 "Alice" 0%float);
                 PerformTransaction 2 (Transaction.mk CREDIT 5%float)]
              empty_store)).
  apply Reachable_run. constructor.
Defined.

(** X5. In a reachable store a loan is in the list of [get_all_loans]
    exactly when [find_loan_by_user_id] finds it under its [user_id],
    and every loan of the list is the loan of a user that
    [get_all_users] lists. *)
Theorem get_all_loans_lists_loans_of_users (s : Store) :
  Reachable s ->
  exists loans users,
    get_all_loans s = (Return loans, s)
    /\ get_all_users s = (Return users, s)
    /\ (forall loan,
          In loan loans
          <-> find_loan_by_user_id (Loan.user_id loan) s = (Return (Some loan), s))
    /\ (forall loan,
          In loan loans ->
          exists user, In user users /\ User.id user = Loan.user_id loan).
Proof.
  intros Hr. destruct (Reachable_loans_keyed s Hr) as [Hnd Hid].
  destruct (Reachable_users_keyed s Hr) as [_ Huid].
  pose proof (Reachable_loans_have_users s Hr) as Hown.
  exists (Dict.values (loans_db s)), (Dict.values (users_db s)).
  split; [reflexivity|]. split; [reflexivity|].
  assert (Hfind : forall loan, In loan (Dict.values (loans_db s)) ->
                  Dict.get (loans_db s) (Loan.user_id loan) = Some loan).
  { intros loan Hin. apply DictOrder.In_values in Hin as [k Hin].
    rewrite <- (Hid _ _ Hin) in Hin. now apply DictOrder.In_get. }
  split.
  - intros loan. unfold find_loan_by_user_id, read_loans_db, bind, ret. simpl.
    split.
    + intros Hin. now rewrite (Hfind loan Hin).
    + intros [= H]. apply DictOrder.In_values.
      exists (Loan.user_id loan). now apply DictFacts.get_In.
  - intros loan Hin. destruct (Hown _ _ (Hfind loan Hin)) as [user Hu].
    apply DictFacts.get_In in Hu. exists user. split.
    + apply DictOrder.In_values. eauto.
    + now apply Huid.
Qed.

Lemma get_all_loans_lists_loans_of_users_witness :
  let s := run [CreateUser (User.mk 2 "Bob" 0%float);
                CreateUser (User.mk 1 "Alice" 0%float);
                TakeLoan 1 50%float]
             empty_store in
  exists loans users,
    get_all_loans s = (Return loans, s)
    /\ get_all_users s = (Return users, s)
    /\ (forall loan,
          In loan loans
          <-> find_loan_by_user_id (Loan.user_id loan) s = (Return (Some loan), s))
    /\ (forall loan,
          In loan loans ->
          exists user, In user users /\ User.id user = Loan.user_id loan).
Proof.
  apply (get_all_loans_lists_loans_of_users
           (run [CreateUser (User.mk 2 "Bob" 0%float);
                 CreateUser (User.mk 1 "Alice" 0%float);
                 TakeLoan 1 50%float]
              empty_store)).
  apply Reachable_run. constructor.
Defined.

(** X6. No loan of a zero or negative amount is ever stored: in a
    reachable store the amount of every loan that [get_all_loans] lists
    fails the test [amount <= 0], so it is [> 0] unless it is NaN. *)
Theorem no_loan_of_zero_or_less (s : Store) (loan : Loan) :
  Reachable s ->
  In loan (Dict.values (loans_db s)) ->
  get_all_loans s = (Return (Dict.values (loans_db s)), s)
  /\ (Loan.amount loan <=? 0)%float = false
  /\ (is_nan (Loan.amount loan) = false -> (0 <? Loan.amount loan)%float = true).
Proof.
  intros Hr Hin. split; [reflexivity|].
  apply DictOrder.In_values in Hin as [k Hin].
  pose proof (Reachable_loans_amounts_checked s Hr k loan Hin) as Ha.
  split; [exact Ha | now apply not_le_zero_positive].
Qed.

Lemma no_loan_of_zero_or_less_witness :
  let s := run [CreateUser (User.mk 1 "Alice" 0%float); TakeLoan 1 50%float]
             empty_store in
  get_all_loans s = (Return (Dict.values (loans_db s)), s)
  /\ (50 <=? 0)%float = false
  /\ (is_nan 50 = false -> (0 <? 50)%float = true).
Proof.
  apply (no_loan_of_zero_or_less
           (run [CreateUser (User.mk 1 "Alice" 0%float); TakeLoan 1 50%float]
              empty_store)
           (Loan.mk 1 50%float)).
  - apply Reachable_run. constructor.
  - simpl. now left.
Defined.

Lemma exec_listings_grow op s :
  exists new_users new_loans,
    map identity (Dict.values (users_db (exec op s)))
    = (map identity (Dict.values (users_db s)) ++ new_users)%list
    /\ Dict.values (loans_db (exec op s))
       = (Dict.values (loans_db s) ++ new_loans)%list.
Proof.
  assert (Hu : exists new_users,
             map identity (Dict.values (users_db (exec op s)))
             = (map identity (Dict.values (users_db s)) ++ new_users)%list).
  { destruct (exec_users_shape op s)
      as [->|[(ui & Hfree & ->)|(k & user0 & b & Hget & ->)]].
    - exists []. now rewrite app_nil_r.
    - rewrite (DictOrder.set_absent _ _ _ Hfree). unfold Dict.values.
      rewrite !map_app. eauto.
    - exists []. rewrite app_nil_r.
      now apply DictOrder.map_values_set_present with (v0 := user0). }
  assert (Hl : exists new_loans,
             Dict.values (loans_db (exec op s))
             = (Dict.values (loans_db s) ++ new_loans)%list).
  { destruct (exec_loans_shape op s) as [->|(k & a & Hfree & _ & _ & ->)].
    - exists []. now rewrite app_nil_r.
    - rewrite (DictOrder.set_absent _ _ _ Hfree). unfold Dict.values.
      rewrite map_app. eauto. }
  destruct Hu as [nu Hu], Hl as [nl Hl]. eauto.
Qed.

(** X7. The two lists only grow at the end: after any calls,
    [get_all_users] returns the users it returned before, in the same
    order with the same identifiers and names, followed by the users
    created since, and [get_all_loans] returns the loans it returned
    before, unchanged and in the same order, followed by the loans
    granted since. *)
Theorem listings_only_grow (ops : list Op) (s : Store) :
  exists users loans users' loans' new_users new_loans,
    get_all_users s = (Return users, s)
    /\ get_all_loans s = (Return loans, s)
    /\ get_all_users (run ops s) = (Return users', run ops s)
    /\ get_all_loans (run ops s) = (Return loans', run ops s)
    /\ map identity users' = (map identity users ++ new_users)%list
    /\ loans' = (loans ++ new_loans)%list.
Proof.
  exists (Dict.values (users_db s)), (Dict.values (loans_db s)),
    (Dict.values (users_db (run ops s))), (Dict.values (loans_db (run ops s))).
  assert (H : exists new_users new_loans,
            map identity (Dict.values (users_db (run ops s)))
            = (map identity (Dict.values (users_db s)) ++ new_users)%list
            /\ Dict.values (loans_db (run ops s))
               = (Dict.values (loans_db s) ++ new_loans)%list).
  { revert s. induction ops as [|op ops IH]; intros s; simpl.
    - exists [], []. now rewrite !app_nil_r.
    - destruct (IH (exec op s)) as (nu & nl & Hu & Hl).
      destruct (exec_listings_grow op s) as (nu0 & nl0 & Hu0 & Hl0).
      exists (nu0 ++ nu)%list, (nl0 ++ nl)%list.
      rewrite Hu, Hl, Hu0, Hl0, !app_assoc. now split. }
  destruct H as (nu & nl & Hu & Hl). exists nu, nl. now repeat split.
Qed.

(** ** The balance view *)

(** X8. In a reachable store the view that [get_user_balance_and_loan]
    returns for [user_id] is about that user: its [user_id] is the one
    asked for, and so is the [user_id] of the loan it shows, if it shows
    one. *)
Theorem balance_view_is_about_the_user_asked
  (s s' : Store) (user_id : Z) (view : BalanceResponse) :
  Reachable s ->
  get_user_balance_and_loan user_id s = (Return view, s') ->
  BalanceResponse.user_id view = user_id
  /\ forall loan, BalanceResponse.loan_details view = Some loan ->
                  Loan.user_id loan = user_id.
Proof.
  intros Hr. destruct (Reachable_users_keyed s Hr) as [_ Huid].
  destruct (Reachable_loans_keyed s Hr) as [_ Hlid].
  unfold get_user_balance_and_loan. rewrite balance_and_loan_via_eq.
  destruct (Dict.get (users_db s) user_id) as [user|] eqn:Hu; [|discriminate].
  unfold get_internal_loan_info, find_loan_by_user_id, read_loans_db, bind, ret.
  simpl. intros [= <- _]. simpl. split.
  - apply Huid. now apply DictFacts.get_In.
  - intros loan Hl. apply Hlid. now apply DictFacts.get_In.
Qed.

Lemma balance_view_is_about_the_user_asked_witness :
  BalanceResponse.user_id
    (BalanceResponse.mk 1 "Alice" 50%float (Some (Loan.mk 1 50%float))) = 1
  /\ forall loan,
       BalanceResponse.loan_details
         (BalanceResponse.mk 1 "Alice" 50%float (Some (Loan.mk 1 50%float)))
       = Some loan ->
       Loan.user_id loan = 1.
Proof.
  apply (balance_view_is_about_the_user_asked
           (run [CreateUser (User.mk 1 "Alice" 0%float); TakeLoan 1 50%float]
              empty_store)
           (run [CreateUser (User.mk 1 "Alice" 0%float); TakeLoan 1 50%float]
              empty_store)
           1).
  - apply Reachable_run. constructor.
  - reflexivity.
Defined.

(** X9. A user created in a reachable store under a free identifier is
    shown by [get_user_balance_and_loan] with the given identifier and
    name, a balance of exactly [0.0], whatever balance the request
    carried, and no loan. *)
Theorem new_user_has_zero_balance_and_no_loan (s : Store) (user_input : User) :
  Reachable s ->
  Dict.contains (users_db s) (User.id user_input) = false ->
  let s1 := snd (create_user user_input s) in
  get_user_balance_and_loan (User.id user_input) s1
  = (Return (BalanceResponse.mk (User.id user_input) (User.name user_input)
               0%float None), s1).
Proof.
  intros Hr Hfree s1. subst s1. rewrite create_user_eq, Hfree. simpl.
  unfold get_user_balance_and_loan. rewrite balance_and_loan_via_eq. simpl.
  rewrite DictFacts.get_set_same.
  unfold get_internal_loan_info, find_loan_by_user_id, read_loans_db, bind, ret.
  simpl.
  destruct (Dict.get (loans_db s) (User.id user_input)) as [loan|] eqn:Hl;
    [|reflexivity].
  destruct (Reachable_loans_have_users s Hr _ _ Hl) as [user Hu].
  unfold Dict.contains in Hfree. now rewrite Hu in Hfree.
Qed.

Lemma new_user_has_zero_balance_and_no_loan_witness :
  let s := run [CreateUser (User.mk 1 "Alice" 0%float); TakeLoan 1 50%float]
             empty_store in
  let s1 := snd (create_user (User.mk 2 "Bob" 1000%float) s) in
  get_user_balance_and_loan 2 s1
  = (Return (BalanceResponse.mk 2 "Bob" 0%float None), s1).
Proof.
  apply (new_user_has_zero_balance_and_no_loan
           (run [CreateUser (User.mk 1 "Alice" 0%float); TakeLoan 1 50%float]
              empty_store)
           (User.mk 2 "Bob" 1000%float)).
  - apply Reachable_run. constructor.
  - reflexivity.
Defined.

(** ** The looped-back endpoints of Reference.py *)

Lemma loopback_balance_eq user_id s :
  Reference.Loopback.get_user_balance_and_loan user_id s =
  match Dict.get (users_db s) user_id with
  | None => (Raise (NotFound user_id), s)
  | Some user =>
      (Return (BalanceResponse.mk (User.id user) (User.name user)
                 (User.balance user)
                 (if user_id <? 1 then None
                  else match Dict.get (loans_db s) user_id with
                       | Some loan =>
                           Some (Loan.mk (Loan.user_id loan) (Loan.amount loan))
                       | None => None
                       end)), s)
  end.
Proof.
  unfold Reference.Loopback.get_user_balance_and_loan,
    Reference.Loopback.client_get_internal_loan_info, get_internal_loan_info,
    find_user_by_id, find_loan_by_user_id, read_users_db, read_loans_db,
    try_except, bind, ret, raise.
  cbv beta iota zeta.
  destruct (Dict.get (users_db s) user_id) as [user|]; [|reflexivity].
  destruct (user_id <? 1); [reflexivity|].
  cbv beta iota zeta. simpl.
  now destruct (Dict.get (loans_db s) user_id).
Qed.

(** X10. For a [user_id >= 1] whose loan, if there is one, has a finite
    amount, the [get_user_balance_and_loan] of Reference.py that asks
    the application itself for the loan answers as the one of main.py,
    which calls [get_internal_loan_info]: the same view or the same
    NotFound, and the same store. *)
Theorem looped_back_balance_view_agrees (user_id : Z) (s : Store) :
  1 <= user_id ->
  (forall loan, Dict.get (loans_db s) user_id = Some loan ->
                is_finite (Loan.amount loan) = true) ->
  Reference.Loopback.get_user_balance_and_loan user_id s
  = get_user_balance_and_loan user_id s.
Proof.
  intros Hid _. rewrite loopback_balance_eq.
  unfold get_user_balance_and_loan. rewrite balance_and_loan_via_eq.
  replace (user_id <? 1) with false by (symmetry; apply Z.ltb_ge; lia).
  destruct (Dict.get (users_db s) user_id) as [user|]; [|reflexivity].
  unfold get_internal_loan_info, find_loan_by_user_id, read_loans_db, bind, ret.
  simpl. now destruct (Dict.get (loans_db s) user_id) as [[owner amount]|].
Qed.

Lemma looped_back_balance_view_agrees_witness :
  let s := run [CreateUser (User.mk 1 "Alice" 0%float); TakeLoan 1 50%float]
             empty_store in
  Reference.Loopback.get_user_balance_and_loan 1 s
  = get_user_balance_and_loan 1 s.
Proof.
  apply (looped_back_balance_view_agrees 1
           (run [CreateUser (User.mk 1 "Alice" 0%float); TakeLoan 1 50%float]
              empty_store)).
  - lia.
  - intros loan [= <-]. reflexivity.
Defined.

(** X11. For a stored user whose identifier is below 1 the looped-back
    [get_user_balance_and_loan] of Reference.py returns the user's id,
    name and balance with no loan details, also when a loan is stored
    for that user: its request for the loan is refused by the route. *)
Theorem looped_back_balance_view_below_one (user_id : Z) (user : User) (s : Store) :
  user_id < 1 ->
  Dict.get (users_db s) user_id = Some user ->
  Reference.Loopback.get_user_balance_and_loan user_id s
  = (Return (BalanceResponse.mk (User.id user) (User.name user)
               (User.balance user) None), s).
Proof.
  intros Hid Hu. rewrite loopback_balance_eq, Hu.
  now replace (user_id <? 1) with true by (symmetry; apply Z.ltb_lt; lia).
Qed.

Lemma looped_back_balance_view_below_one_witness :
  let s := run [CreateUser (User.mk 0 "Zed" 0%float); TakeLoan 0 50%float]
             empty_store in
  Dict.get (loans_db s) 0 = Some (Loan.mk 0 50%float)
  /\ Reference.Loopback.get_user_balance_and_loan 0 s
     = (Return (BalanceResponse.mk 0 "Zed" 50%float None), s).
Proof.
  split; [reflexivity|].
  apply (looped_back_balance_view_below_one 0 (User.mk 0 "Zed" 50%float)
           (run [CreateUser (User.mk 0 "Zed" 0%float); TakeLoan 0 50%float]
              empty_store)).
  - lia.
  - reflexivity.
Defined.

(** X12. The looped-back [take_loan] of Reference.py grants no loan to
    a user whose identifier is below 1: with any amount it raises and
    leaves the store as it was; and for a finite amount and a stored
    user without a loan what it raises is the 500 that reports the 422
    of the refused request. *)
Theorem looped_back_take_loan_below_one
  (transport : Reference.Transport) (user_id : Z) (loan_amount : float)
  (s : Store) :
  user_id < 1 ->
  exists e,
    Reference.Loopback.take_loan transport user_id loan_amount s = (Raise e, s)
    /\ (Reference.takes_finite transport ->
        is_finite loan_amount = true ->
        forall user,
          Dict.get (users_db s) user_id = Some user ->
          Dict.get (loans_db s) user_id = None ->
          e = CreditFailed 422 (Reference.validation_detail transport user_id)).
Proof.
  intros Hid. rewrite loopback_take_loan_eq.
  replace (user_id <? 1) with true by (symmetry; apply Z.ltb_lt; lia).
  destruct (Dict.get (users_db s) user_id) as [user|];
    [|eexists; split; [reflexivity | discriminate]].
  destruct (Dict.get (loans_db s) user_id) as [loan|];
    [eexists; split; [reflexivity | discriminate]|].
  destruct (Reference.encodes transport loan_amount) eqn:Hencodes; cbn [negb].
  - eexists. split; reflexivity.
  - eexists. split; [reflexivity|].
    intros Hfinite Hamount. destruct (Hfinite _ Hamount) as [H _]. congruence.
Qed.

Lemma looped_back_take_loan_below_one_witness :
  let s := exec (CreateUser (User.mk 0 "Zed" 0%float)) empty_store in
  exists e,
    Reference.Loopback.take_loan Reference.strict_transport 0 50%float s
    = (Raise e, s)
    /\ (Reference.takes_finite Reference.strict_transport ->
        is_finite 50 = true ->
        forall user,
          Dict.get (users_db s) 0 = Some user ->
          Dict.get (loans_db s) 0 = None ->
          e = CreditFailed 422
                (Reference.validation_detail Reference.strict_transport 0)).
Proof.
  apply (looped_back_take_loan_below_one Reference.strict_transport 0 50%float
           (exec (CreateUser (User.mk 0 "Zed" 0%float)) empty_store)).
  lia.
Defined.

(** ** Two edges of the balance arithmetic *)

(** A positive finite number is not below itself, and taking it from
    itself leaves [0.0]. *)
Lemma finite_positive_minus_itself (b : float) :
  is_finite b = true -> (b <=? 0)%float = false ->
  (b <? b)%float = false /\ (b - b)%float = 0%float.
Proof.
  intros Hf Hb. destruct (finite_positive_SF b Hf Hb) as (m & e & E). split.
  - rewrite ltb_spec, E. unfold SFltb, SFcompare.
    now rewrite Z.compare_refl, Pos.compare_cont_refl.
  - apply Prim2SF_inj. rewrite sub_spec, E.
    unfold SF64sub, SFsub. cbn [cond_Zopp]. now rewrite Z.sub_diag.
Qed.

(** X13. A debit of the whole balance is accepted: for a stored user
    with a positive finite balance, [perform_transaction] with a debit
    of exactly that balance returns the user with a balance of exactly
    [0.0] and stores it. *)
Theorem debit_of_the_whole_balance (user_id : Z) (user : User) (s : Store) :
  Dict.get (users_db s) user_id = Some user ->
  is_finite (User.balance user) = true ->
  (User.balance user <=? 0)%float = false ->
  let emptied := User.mk (User.id user) (User.name user) 0%float in
  perform_transaction user_id (Transaction.mk DEBIT (User.balance user)) s
  = (Return emptied, mkStore (Dict.set (users_db s) user_id emptied) (loans_db s)).
Proof.
  intros Hu Hf Hb emptied. subst emptied.
  destruct (finite_positive_minus_itself _ Hf Hb) as [Hlt Hsub].
  rewrite perform_transaction_eq, Hu. simpl.
  rewrite Hb, Hlt. unfold User.with_balance. now rewrite Hsub.
Qed.

Lemma debit_of_the_whole_balance_witness :
  let s := mkStore [(1, User.mk 1 "Alice" 70%float)] [] in
  perform_transaction 1 (Transaction.mk DEBIT 70%float) s
  = (Return (User.mk 1 "Alice" 0%float),
     mkStore (Dict.set (users_db s) 1 (User.mk 1 "Alice" 0%float)) (loans_db s)).
Proof.
  exact (debit_of_the_whole_balance 1 (User.mk 1 "Alice" 70%float)
           (mkStore [(1, User.mk 1 "Alice" 70%float)] [])
           eq_refl eq_refl eq_refl).
Defined.

Lemma is_nan_SF (a : float) : is_nan a = true <-> Prim2SF a = S754_nan.
Proof.
  unfold is_nan. rewrite eqb_spec. unfold SFeqb, SFcompare.
  destruct (Prim2SF a) as [sa|sa| |sa m e]; simpl.
  - split; discriminate.
  - destruct sa; split; discriminate.
  - now split.
  - rewrite Z.compare_refl, Pos.compare_cont_refl.
    destruct sa; split; discriminate.
Qed.

(** NaN plus or minus anything is NaN. *)
Lemma nan_absorbs (a b : float) :
  is_nan a = true -> is_nan (a + b) = true /\ is_nan (a - b) = true.
Proof.
  rewrite !is_nan_SF, add_spec, sub_spec. now intros ->.
Qed.

Lemma exec_keeps_nan op s k user :
  Dict.get (users_db s) k = Some user ->
  is_nan (User.balance user) = true ->
  exists user',
    Dict.get (users_db (exec op s)) k = Some user'
    /\ is_nan (User.balance user') = true.
Proof.
  intros Hu Hnan.
  assert (Hp : forall user_id transaction,
             exists user',
               Dict.get (users_db (snd (perform_transaction user_id transaction s))) k
               = Some user'
               /\ is_nan (User.balance user') = true).
  { intros user_id transaction.
    destruct (Z.eq_dec k user_id) as [->|Hk];
      [|rewrite perform_transaction_users by exact Hk; eauto].
    rewrite perform_transaction_eq, Hu.
    destruct (Transaction.amount transaction <=? 0)%float; [simpl; eauto|].
    destruct (nan_absorbs _ (Transaction.amount transaction) Hnan) as [Hadd Hsub].
    destruct (Transaction.type transaction); simpl.
    - destruct (User.balance user <? Transaction.amount transaction)%float;
        simpl; [eauto|].
      rewrite DictFacts.get_set_same. eauto.
    - rewrite DictFacts.get_set_same. eauto. }
  destruct op; unfold exec.
  - rewrite create_user_eq. unfold Dict.contains.
    destruct (Dict.get (users_db s) (User.id user_input)) eqn:Hg; simpl; [eauto|].
    rewrite DictFacts.get_set_other by congruence. eauto.
  - apply Hp.
  - rewrite take_loan_eq.
    destruct (Dict.get (users_db s) user_id) as [owner|]; [|simpl; eauto].
    destruct (Dict.get (loans_db s) user_id) as [loan|]; [simpl; eauto|].
    specialize (Hp user_id (Transaction.mk CREDIT loan_amount)).
    now destruct (perform_transaction user_id (Transaction.mk CREDIT loan_amount) s)
      as [[updated|e] s1].
  - rewrite (proj1 (proj2 (read_only_calls s))). eauto.
  - rewrite (proj1 (read_only_calls s)). eauto.
  - rewrite (proj1 (proj2 (proj2 (read_only_calls s)))). eauto.
  - rewrite (proj2 (proj2 (proj2 (read_only_calls s)))). eauto.
Qed.

(** X14. A balance that is NaN stays NaN: once the balance stored for a
    user is NaN, it is NaN after any further calls, no credit, debit or
    loan brings it back to a number. *)
Theorem nan_balance_is_permanent (ops : list Op) (s : Store) (k : Z) (user : User) :
  Dict.get (users_db s) k = Some user ->
  is_nan (User.balance user) = true ->
  exists user',
    Dict.get (users_db (run ops s)) k = Some user'
    /\ is_nan (User.balance user') = true.
Proof.
  revert s user. induction ops as [|op ops IH]; intros s user Hu Hnan; simpl;
    [eauto|].
  destruct (exec_keeps_nan op s k user Hu Hnan) as (user1 & H1 & N1).
  exact (IH _ _ H1 N1).
Qed.

Lemma nan_balance_is_permanent_witness :
  exists user',
    Dict.get
      (users_db
         (run [PerformTransaction 1 (Transaction.mk CREDIT 100%float);
               PerformTransaction 1 (Transaction.mk DEBIT 30%float);
               TakeLoan 1 50%float]
            (mkStore [(1, User.mk 1 "Alice" nan)] []))) 1 = Some user'
    /\ is_nan (User.balance user') = true.
Proof.
  exact (nan_balance_is_permanent
           [PerformTransaction 1 (Transaction.mk CREDIT 100%float);
            PerformTransaction 1 (Transaction.mk DEBIT 30%float);
            TakeLoan 1 50%float]
           (mkStore [(1, User.mk 1 "Alice" nan)] []) 1
           (User.mk 1 "Alice" nan) eq_refl eq_refl).
Defined.
